(** * PyShock: the TShock REST client, its URL builder and its request
      validator

    A shallow embedding of [pyshock/tshock.py] and [pyshock/enums.py].

    Conventions of the model.
    - A Python [str] is a [string] of bytes, the UTF-8 text of the Python
      string; percent-encoding works on these bytes as [urllib] does.
    - A Python [dict] is an association list in insertion order (CPython 3.7
      and later); [dict_set] keeps the position of a key that is present and
      appends a new key at the end.
    - An exception is a value of [exn]; a computation that can raise returns
      an [outcome].  Methods of the client run in the monad [M], a state
      monad whose state survives an exception, as the fields of a Python
      object do.
    - The HTTP library and the server are an oracle [transport]: from the
      requests sent so far and the URL of this one it gives the reply. *)

From Stdlib Require Import String Ascii List ZArith Bool Lia DecimalString.
Import ListNotations.
Open Scope list_scope.
Open Scope string_scope.

(* ================================================================== *)
(** ** Python values, exceptions, dictionaries *)

(** [pyshock/enums.py] *)
Inductive UserLookupType := UserLookupType_ID | UserLookupType_Name.
Inductive BanLookupType := BanLookupType_Name | BanLookupType_IP.

(** The values the client handles.  [PObj text] is an object of any other
    type (a float, a list, a nested dict): the client never looks inside
    such a value, it only renders it with [str()], and [text] is that
    rendering. *)
Inductive pyval :=
| PNone
| PBool (b : bool)
| PInt (n : Z)
| PStr (s : string)
| PUser (m : UserLookupType)
| PBan (m : BanLookupType)
| PObj (text : string).

Definition pydict := list (string * pyval).

(** Modelled from the spec: [pyshock.exceptions.ApiException] is imported by
    tshock.py and is not among the sources; it is the single typed error of
    the client and carries its message.  The other constructors are the
    exceptions the code can let escape or has to catch: [RequestException]
    is whatever [req.get] raises, [JSONDecodeError] what [res.json()] raises
    on a body that is not JSON (a [ValueError], and in recent versions of
    the HTTP library also one of its own exceptions); neither is an
    [ApiException]. *)
Inductive exn :=
| ApiException (msg : string)
| TypeError
| KeyError (key : string)
| ValueError
| RequestException
| JSONDecodeError.

Inductive outcome (A : Type) :=
| Return (a : A)
| Raise (e : exn).
Arguments Return {A} a.
Arguments Raise {A} e.

Definition is_ApiException (e : exn) : bool :=
  match e with ApiException _ => true | _ => false end.

Module Enum.
(** [member.value] *)
Definition user_value (m : UserLookupType) : string :=
  match m with UserLookupType_ID => "id" | UserLookupType_Name => "name" end.
Definition ban_value (m : BanLookupType) : string :=
  match m with BanLookupType_Name => "name" | BanLookupType_IP => "ip" end.
(** [str(member)] of a plain [Enum]: class name, dot, member name *)
Definition user_str (m : UserLookupType) : string :=
  match m with
  | UserLookupType_ID => "UserLookupType.ID"
  | UserLookupType_Name => "UserLookupType.Name"
  end.
Definition ban_str (m : BanLookupType) : string :=
  match m with
  | BanLookupType_Name => "BanLookupType.Name"
  | BanLookupType_IP => "BanLookupType.IP"
  end.
End Enum.

(** [str(v)], which is also what ["{0}".format(v)] inserts *)
Definition py_str (v : pyval) : string :=
  match v with
  | PNone => "None"
  | PBool true => "True"
  | PBool false => "False"
  | PInt n => NilZero.string_of_int (Z.to_int n)
  | PStr s => s
  | PUser m => Enum.user_str m
  | PBan m => Enum.ban_str m
  | PObj text => text
  end.

(** [v == s] for a string literal [s]: only a [str] equals a [str] *)
Definition py_eq_str (v : pyval) (s : string) : bool :=
  match v with PStr t => String.eqb t s | _ => false end.

(** [v in [s1, s2, ...]] for a list of string literals *)
Definition py_in_strs (v : pyval) (l : list string) : bool :=
  existsb (py_eq_str v) l.

Fixpoint dict_get (d : pydict) (k : string) : option pyval :=
  match d with
  | [] => None
  | (k', v) :: r => if String.eqb k' k then Some v else dict_get r k
  end.

(** [d[k] = v] *)
Fixpoint dict_set (d : pydict) (k : string) (v : pyval) : pydict :=
  match d with
  | [] => [(k, v)]
  | (k', v') :: r =>
      if String.eqb k' k then (k, v) :: r else (k', v') :: dict_set r k v
  end.

Definition dict_has (d : pydict) (k : string) : bool :=
  match dict_get d k with Some _ => true | None => false end.

(** [sep.join(args)]: every item has to be a [str] *)
Fixpoint all_strs (args : list pyval) : option (list string) :=
  match args with
  | [] => Some []
  | PStr s :: r =>
      match all_strs r with Some l => Some (s :: l) | None => None end
  | _ :: _ => None
  end.

Definition str_join (sep : string) (args : list pyval) : outcome string :=
  match all_strs args with
  | Some l => Return (String.concat sep l)
  | None => Raise TypeError
  end.

(* ================================================================== *)
(** ** [urllib.parse]: [urlencode] and [urljoin]

    The two library functions [get_url] calls, after CPython 3.11.  The
    caches are left out.  Of the checks [urlsplit] makes on a network
    location, those on IPv6 brackets and on names outside ASCII depend on
    the address and Unicode tables of the interpreter: they are the
    parameter [netloc_check] below, consulted only for a location that has
    a bracket or a byte outside ASCII. *)

Module urllib.

Definition in_range (lo hi : nat) (c : ascii) : bool :=
  let n := nat_of_ascii c in (lo <=? n)%nat && (n <=? hi)%nat.
Definition is_upper := in_range 65 90.
Definition is_lower := in_range 97 122.
Definition is_digit := in_range 48 57.
Definition is_alpha (c : ascii) : bool := is_upper c || is_lower c.
Definition one_of (chars : string) (c : ascii) : bool :=
  existsb (Ascii.eqb c) (list_ascii_of_string chars).

(** *** Quoting *)

(** [_ALWAYS_SAFE] *)
Definition always_safe (c : ascii) : bool :=
  is_alpha c || is_digit c || one_of "_.-~" c.

Definition hex_digit (n : nat) : ascii :=
  nth n (list_ascii_of_string "0123456789ABCDEF") "0"%char.

(** one byte of [quote_plus(s)], [safe] empty: kept, a space as [+], or
    [%XX] *)
Definition quote_byte (c : ascii) : string :=
  if always_safe c then String c ""
  else if Ascii.eqb c " " then "+"
  else let n := nat_of_ascii c in
       String "%" (String (hex_digit (n / 16)) (String (hex_digit (n mod 16)) "")).

Fixpoint quote_plus (s : string) : string :=
  match s with
  | "" => ""
  | String c r => quote_byte c ++ quote_plus r
  end.

(** [urlencode(query)] with [doseq] false: [str()] of every value, both
    sides quoted, the pairs in the order of the dict *)
Definition encode_item (kv : string * pyval) : string :=
  quote_plus (fst kv) ++ "=" ++ quote_plus (py_str (snd kv)).

Definition urlencode (query : pydict) : string :=
  String.concat "&" (map encode_item query).

(** *** String helpers *)

Definition lstrip (drop : ascii -> bool) : string -> string :=
  fix go (s : string) : string :=
    match s with
    | String c r => if drop c then go r else s
    | "" => ""
    end.

Fixpoint remove_chars (drop : ascii -> bool) (s : string) : string :=
  match s with
  | "" => ""
  | String c r =>
      if drop c then remove_chars drop r else String c (remove_chars drop r)
  end.

Definition lower (s : string) : string :=
  string_of_list_ascii
    (map (fun c => if is_upper c then ascii_of_nat (nat_of_ascii c + 32) else c)
         (list_ascii_of_string s)).

Definition all_chars (p : ascii -> bool) (s : string) : bool :=
  forallb p (list_ascii_of_string s).
Definition has_char (c : ascii) (s : string) : bool :=
  existsb (Ascii.eqb c) (list_ascii_of_string s).

(** [s.split(sep, 1)] when [sep] occurs in [s] *)
Fixpoint split_once (sep : ascii) (s : string) : option (string * string) :=
  match s with
  | "" => None
  | String c r =>
      if Ascii.eqb c sep then Some ("", r)
      else match split_once sep r with
           | Some (a, b) => Some (String c a, b)
           | None => None
           end
  end.

(** the same at the last occurrence of [sep] *)
Fixpoint rsplit_once (sep : ascii) (s : string) : option (string * string) :=
  match s with
  | "" => None
  | String c r =>
      match rsplit_once sep r with
      | Some (a, b) => Some (String c a, b)
      | None => if Ascii.eqb c sep then Some ("", r) else None
      end
  end.

(** [s.split(sep)] *)
Fixpoint split (sep : ascii) (s : string) : list string :=
  match s with
  | "" => [""]
  | String c r =>
      if Ascii.eqb c sep then "" :: split sep r
      else match split sep r with
           | h :: t => String c h :: t
           | [] => [String c ""]
           end
  end.

(** the longest prefix without a character of [stop], and the rest *)
Fixpoint span_until (stop : ascii -> bool) (s : string) : string * string :=
  match s with
  | "" => ("", "")
  | String c r =>
      if stop c then ("", s)
      else let (a, b) := span_until stop r in (String c a, b)
  end.

Definition starts2 (s : string) (c : ascii) : bool :=
  match s with
  | String a (String b _) => Ascii.eqb a c && Ascii.eqb b c
  | _ => false
  end.
Definition starts1 (s : string) (c : ascii) : bool :=
  match s with String a _ => Ascii.eqb a c | _ => false end.
Definition nonempty (s : string) : bool :=
  match s with "" => false | _ => true end.
Definition in_strs (s : string) (l : list string) : bool :=
  existsb (String.eqb s) l.

Definition uses_relative : list string :=
  [""; "ftp"; "http"; "gopher"; "nntp"; "imap"; "wais"; "file"; "https";
   "shttp"; "mms"; "prospero"; "rtsp"; "rtspu"; "sftp"; "svn"; "svn+ssh";
   "ws"; "wss"].
Definition uses_netloc : list string :=
  [""; "ftp"; "http"; "gopher"; "nntp"; "telnet"; "imap"; "wais"; "file";
   "mms"; "https"; "shttp"; "snews"; "prospero"; "rtsp"; "rtspu"; "rsync";
   "svn"; "svn+ssh"; "sftp"; "nfs"; "git"; "git+ssh"; "ws"; "wss"].
Definition uses_params : list string :=
  [""; "ftp"; "hdl"; "prospero"; "http"; "imap"; "https"; "shttp"; "rtsp";
   "rtspu"; "sip"; "sips"; "mms"; "sftp"; "tel"].
Definition scheme_char (c : ascii) : bool :=
  is_alpha c || is_digit c || one_of "+-." c.
(** [_WHATWG_C0_CONTROL_OR_SPACE] and [_UNSAFE_URL_BYTES_TO_REMOVE] *)
Definition c0_or_space (c : ascii) : bool := (nat_of_ascii c <=? 32)%nat.
Definition unsafe_byte (c : ascii) : bool :=
  let n := nat_of_ascii c in
  Nat.eqb n 9 || Nat.eqb n 13 || Nat.eqb n 10.

Record SplitResult := mkSplit
  { s_scheme : string; s_netloc : string; s_path : string;
    s_query : string; s_fragment : string }.

Record ParseResult := mkParse
  { scheme : string; netloc : string; path : string; params : string;
    query : string; fragment : string }.

(** a location without brackets and within ASCII passes every check of
    [urlsplit] *)
Definition plain_netloc (s : string) : bool :=
  all_chars (fun c => (nat_of_ascii c <? 128)%nat
                      && negb (Ascii.eqb c "[") && negb (Ascii.eqb c "]")) s.

Section Parse.
(** the checks of [urlsplit] on a location that is not plain *)
Variable netloc_check : string -> bool.

(** one bracket without the other is always an "Invalid IPv6 URL" *)
Definition netloc_accepted (s : string) : bool :=
  if xorb (has_char "[" s) (has_char "]" s) then false
  else plain_netloc s || netloc_check s.

Definition urlsplit (url0 default_scheme : string) : outcome SplitResult :=
  let url := remove_chars unsafe_byte (lstrip c0_or_space url0) in
  (* the scheme, when the text before the first colon is one *)
  let '(sch, url) :=
    match split_once ":" url with
    | Some (String c0 pre, rest) =>
        if is_alpha c0 && all_chars scheme_char (String c0 pre)
        then (lower (String c0 pre), rest)
        else (default_scheme, url)
    | _ => (default_scheme, url)
    end in
  let '(loc, url) :=
    if starts2 url "/"
    then span_until (one_of "/?#")
           (match url with String _ (String _ r) => r | _ => "" end)
    else ("", url) in
  let '(url, frag) :=
    match split_once "#" url with Some p => p | None => (url, "") end in
  let '(url, qry) :=
    match split_once "?" url with Some p => p | None => (url, "") end in
  if netloc_accepted loc
  then Return (mkSplit sch loc url qry frag)
  else Raise ValueError.

(** [_splitparams(url)], [None] when it finds no [;] after the last
    slash *)
Definition _splitparams (url : string) : option (string * string) :=
  match rsplit_once "/" url with
  | Some (dir, last) =>
      match split_once ";" last with
      | Some (b, a) => Some (dir ++ "/" ++ b, a)
      | None => None
      end
  | None => split_once ";" url
  end.

Definition urlparse (url default_scheme : string) : outcome ParseResult :=
  match urlsplit url default_scheme with
  | Raise e => Raise e
  | Return r =>
      let '(p, prm) :=
        if in_strs (s_scheme r) uses_params
        then match _splitparams (s_path r) with
             | Some x => x
             | None => (s_path r, "")
             end
        else (s_path r, "") in
      Return (mkParse (s_scheme r) (s_netloc r) p prm (s_query r) (s_fragment r))
  end.

Definition urlunsplit (sch loc url qry frag : string) : string :=
  let url :=
    if nonempty loc
       || (nonempty sch && in_strs sch uses_netloc && negb (starts2 url "/"))
    then "//" ++ loc ++ (if nonempty url && negb (starts1 url "/")
                         then "/" ++ url else url)
    else url in
  let url := if nonempty sch then sch ++ ":" ++ url else url in
  let url := if nonempty qry then url ++ "?" ++ qry else url in
  if nonempty frag then url ++ "#" ++ frag else url.

Definition urlunparse (p : ParseResult) : string :=
  let url := if nonempty (params p) then path p ++ ";" ++ params p else path p in
  urlunsplit (scheme p) (netloc p) url (query p) (fragment p).

(** the loop of [urljoin] over the segments: [..] pops, [.] is skipped *)
Definition resolve (segments : list string) : list string :=
  fold_left
    (fun acc seg =>
       if String.eqb seg ".." then removelast acc
       else if String.eqb seg "." then acc
       else (acc ++ [seg])%list)
    segments [].

(** [segments[1:-1] = filter(None, segments[1:-1])] *)
Definition squeeze (segments : list string) : list string :=
  match segments with
  | first :: (_ :: _) as r =>
      (first :: filter nonempty (removelast r) ++ [last r ""])%list
  | _ => segments
  end.

Definition urljoin (base url : string) : outcome string :=
  if negb (nonempty base) then Return url
  else if negb (nonempty url) then Return base
  else
    match urlparse base "" with
    | Raise e => Raise e
    | Return b =>
    match urlparse url (scheme b) with
    | Raise e => Raise e
    | Return u =>
        if negb (String.eqb (scheme u) (scheme b))
           || negb (in_strs (scheme u) uses_relative)
        then Return url
        else if in_strs (scheme u) uses_netloc && nonempty (netloc u)
        then Return (urlunparse u)
        else
          let loc := if in_strs (scheme u) uses_netloc
                     then netloc b else netloc u in
          if negb (nonempty (path u)) && negb (nonempty (params u))
          then Return (urlunparse
                 (mkParse (scheme u) loc (path b) (params b)
                    (if nonempty (query u) then query u else query b)
                    (fragment u)))
          else
            let base_parts :=
              let parts := split "/" (path b) in
              if nonempty (last parts "") then removelast parts else parts in
            let segments :=
              if starts1 (path u) "/" then split "/" (path u)
              else squeeze (base_parts ++ split "/" (path u))%list in
            let resolved :=
              (resolve segments
               ++ (if in_strs (last segments "") ["."; ".."] then [""] else []))%list in
            let joined := String.concat "/" resolved in
            Return (urlunparse
              (mkParse (scheme u) loc
                 (if nonempty joined then joined else "/")
                 (params u) (query u) (fragment u)))
    end
    end.
End Parse.
End urllib.

(* ================================================================== *)
(** ** [class RequestBuilder] *)

Module RequestBuilder.

Record t := mk { ip : pyval; post : pyval; token : pyval }.

Definition __init__ (ip post : pyval) : t := mk ip post (PStr "").

Definition set_token (self : t) (v : pyval) : t := mk (ip self) (post self) v.

Section GetUrl.
Variable netloc_check : string -> bool.

(** [get_url] with its positional [args] and keyword [kwargs] *)
Definition get_url (self : t) (args : list pyval) (kwargs : pydict)
  : outcome string :=
  let base := "http://" ++ py_str (ip self) ++ ":" ++ py_str (post self) in
  match str_join "/" args with
  | Raise e => Raise e
  | Return joined =>
      let path := "/" ++ joined in
      let kwargs := dict_set kwargs "token" (token self) in
      let params := urllib.urlencode kwargs in
      match urllib.urljoin netloc_check base path with
      | Raise e => Raise e
      | Return joined_url => Return (joined_url ++ "?" ++ params)
      end
  end.
End GetUrl.

End RequestBuilder.

(* ================================================================== *)
(** ** The transport and the monad of the client *)

(** What [res.json()] gives: a dict, or a value of another JSON type, which
    cannot be subscripted with a string. *)
Inductive jsonval :=
| JDict (d : pydict)
| JOther (v : pyval).

(** What [req.get(url)] does: it raises, or it returns a response whose
    body decodes to [Some j] or is not JSON. *)
Inductive reply :=
| Failed
| Responded (body : option jsonval).

(** The reply to a request, given the URLs requested before it (oldest
    first) and its own URL. *)
Definition transport := list string -> string -> reply.

(** [results[key]] *)
Definition getitem (results : jsonval) (key : string) : outcome pyval :=
  match results with
  | JDict d =>
      match dict_get d key with
      | Some v => Return v
      | None => Raise (KeyError key)
      end
  | JOther _ => Raise TypeError
  end.

Module TShock.

Record t := mk
  { urls : RequestBuilder.t; ip : pyval; port : pyval; token : pyval }.

(** [TShock(ip, port)] *)
Definition __init__ (ip port : pyval) : t :=
  mk (RequestBuilder.__init__ ip port) ip port (PStr "").

(** [self.urls.token = v] *)
Definition set_urls_token (self : t) (v : pyval) : t :=
  mk (RequestBuilder.set_token (urls self) v) (ip self) (port self) (token self).

(** The client object and the requests made so far. *)
Record world := mkWorld { self : t; sent : list string }.

Definition M (A : Type) : Type := world -> outcome A * world.

Definition ret {A} (a : A) : M A := fun w => (Return a, w).
Definition raise {A} (e : exn) : M A := fun w => (Raise e, w).
Definition bind {A B} (m : M A) (k : A -> M B) : M B :=
  fun w =>
    match m w with
    | (Return a, w') => k a w'
    | (Raise e, w') => (Raise e, w')
    end.
Definition lift {A} (o : outcome A) : M A := fun w => (o, w).

(** [try: m  except <classes>: handler], for the classes [catches]
    accepts *)
Definition try_except {A} (m : M A) (catches : exn -> bool) (handler : M A)
  : M A :=
  fun w =>
    match m w with
    | (Return a, w') => (Return a, w')
    | (Raise e, w') => if catches e then handler w' else (Raise e, w')
    end.

Declare Scope py_scope.
Delimit Scope py_scope with py.
Notation "x <- c ;; k" := (bind c (fun x => k))
  (at level 61, c at next level, right associativity) : py_scope.
Notation "c ;;; k" := (bind c (fun _ => k))
  (at level 61, right associativity) : py_scope.
Open Scope py_scope.

(** [except Exception]: every exception of the model is one *)
Definition Exception (e : exn) : bool := true.

Section Client.
Variable server : transport.
Variable netloc_check : string -> bool.

(** [req.get(url)] *)
Definition req_get (url : string) : M (option jsonval) :=
  fun w =>
    let w' := mkWorld (self w) (sent w ++ [url])%list in
    match server (sent w) url with
    | Failed => (Raise RequestException, w')
    | Responded body => (Return body, w')
    end.

(** [res.json()] *)
Definition res_json (res : option jsonval) : M jsonval :=
  match res with
  | Some j => ret j
  | None => raise JSONDecodeError
  end.

Definition error_message (status error : pyval) : string :=
  "Error in request. Server returned status: " ++ py_str status
  ++ " With error: " ++ py_str error.

Definition _make_request (url : string) : M jsonval :=
  res <- try_except (req_get url) Exception
           (raise (ApiException
              "An error occurred in making the request to the server.")) ;;
  results <- res_json res ;;
  status <- lift (getitem results "status") ;;
  if py_eq_str status "404" then
    raise (ApiException "404 Error. Are you sure the server has REST enabled?")
  else
    status <- lift (getitem results "status") ;;
    if py_in_strs status ["200"; "400"] then
      ret results
    else
      status <- lift (getitem results "status") ;;
      error <- lift (getitem results "error") ;;
      raise (ApiException (error_message status error)).

(** [self.urls.get_url] with positional and keyword arguments *)
Definition get_url (args : list pyval) (kwargs : pydict) : M string :=
  fun w => (RequestBuilder.get_url netloc_check (urls (self w)) args kwargs, w).

(** reading and writing [self.urls.token] *)
Definition urls_token : M pyval :=
  fun w => (Return (RequestBuilder.token (urls (self w))), w).
Definition store_urls_token (v : pyval) : M unit :=
  fun w => (Return tt, mkWorld (set_urls_token (self w) v) (sent w)).

(** The keywords of a call of [get_url] that ends in a starred dict: a key
    given twice, or a key [self], the name of the first parameter of
    [get_url], is a [TypeError] of the call. *)
Definition keywords (explicit star : pydict) : M pydict :=
  if existsb (fun kv => dict_has explicit (fst kv) || String.eqb (fst kv) "self") star
  then raise TypeError
  else ret (explicit ++ star)%list.

(** for a method that calls [_make_request] and returns [None] *)
Definition discard (m : M jsonval) : M unit := m ;;; ret tt.

(** *** The endpoint methods, in the order of the class

    Every argument has the type its annotation or docstring gives it: a
    [str] is a [string], a [bool] a [bool], a lookup type a member of its
    enumeration.  Default values are left to the caller:
    [get_server_status_v2()] is [get_server_status_v2 false false None],
    and [do_group_create] has the defaults "", "" and "255,255,255". *)

Definition get_token (user password : string) : M unit :=
  url <- get_url [PStr "v2"; PStr "token"; PStr "create"; PStr password]
           [("username", PStr user)] ;;
  results <- _make_request url ;;
  tok <- lift (getitem results "token") ;;
  store_urls_token tok.

Definition get_status : M jsonval :=
  url <- get_url [PStr "status"] [] ;;
  _make_request url.

(** [return True] follows the [try] statement in the source; nothing
    can raise between the two, so it is written at the end of the body. *)
Definition get_token_status : M bool :=
  try_except
    (url <- get_url [PStr "tokentest"] [] ;;
     _make_request url ;;;
     ret true)
    is_ApiException
    (ret false).

(** [players] and [rules] default to [False], [filters] to [None] *)
Definition get_server_status_v2 (players rules : bool)
    (filters : option pydict) : M jsonval :=
  let filters := match filters with None => [] | Some f => f end in
  kwargs <- keywords [("players", PBool players); ("rules", PBool rules)]
              filters ;;
  url <- get_url [PStr "v2"; PStr "server"; PStr "status"] kwargs ;;
  _make_request url.

Definition get_active_user_list : M jsonval :=
  url <- get_url [PStr "v2"; PStr "users"; PStr "activelist"] [] ;;
  _make_request url.

Definition get_user_info (lookup : UserLookupType) (user : string) : M jsonval :=
  url <- get_url [PStr "v2"; PStr "users"; PStr "read"]
           [("type", PStr (Enum.user_value lookup)); ("user", PStr user)] ;;
  _make_request url.

Definition get_ban_information (lookup : BanLookupType) (user : string) : M jsonval :=
  url <- get_url [PStr "v2"; PStr "bans"; PStr "read"]
           [("type", PStr (Enum.ban_value lookup)); ("ban", PStr user)] ;;
  _make_request url.

Definition get_ban_list : M jsonval :=
  url <- get_url [PStr "v2"; PStr "bans"; PStr "list"] [] ;;
  _make_request url.

Definition get_player_list : M jsonval :=
  url <- get_url [PStr "v2"; PStr "players"; PStr "list"] [] ;;
  _make_request url.

Definition get_player_info (player : string) : M jsonval :=
  url <- get_url [PStr "v2"; PStr "players"; PStr "read"]
           [("player", PStr player)] ;;
  _make_request url.

Definition get_world_info : M jsonval :=
  url <- get_url [PStr "world"; PStr "read"] [] ;;
  _make_request url.

Definition get_group_list : M jsonval :=
  url <- get_url [PStr "v2"; PStr "groups"; PStr "list"] [] ;;
  _make_request url.

Definition get_group_info (group : string) : M jsonval :=
  url <- get_url [PStr "v2"; PStr "groups"; PStr "read"]
           [("group", PStr group)] ;;
  _make_request url.

Definition get_server_motd : M jsonval :=
  url <- get_url [PStr "v3"; PStr "server"; PStr "motd"] [] ;;
  _make_request url.

Definition get_server_rules : M jsonval :=
  url <- get_url [PStr "v3"; PStr "server"; PStr "rules"] [] ;;
  _make_request url.

Definition do_destroy_token : M unit :=
  tok <- urls_token ;;
  url <- get_url [PStr "token"; PStr "destroy"; tok] [] ;;
  discard (_make_request url).

Definition do_destroy_all_tokens : M unit :=
  url <- get_url [PStr "v3"; PStr "token"; PStr "destroy"; PStr "all"] [] ;;
  discard (_make_request url).

Definition do_server_broadcast (message : string) : M unit :=
  url <- get_url [PStr "v2"; PStr "server"; PStr "broadcast"]
           [("msg", PStr message)] ;;
  discard (_make_request url).

Definition do_server_reload : M unit :=
  url <- get_url [PStr "v3"; PStr "server"; PStr "reload"] [] ;;
  discard (_make_request url).

Definition do_server_off : M unit :=
  url <- get_url [PStr "v2"; PStr "server"; PStr "off"] [] ;;
  discard (_make_request url).

Definition do_server_restart : M unit :=
  url <- get_url [PStr "v3"; PStr "server"; PStr "restart"] [] ;;
  discard (_make_request url).

Definition do_server_rawcmd_v2 (command : string) : M jsonval :=
  url <- get_url [PStr "v2"; PStr "server"; PStr "rawcmd"]
           [("cmd", PStr command)] ;;
  _make_request url.

Definition do_server_rawcmd_v3 (command : string) : M jsonval :=
  url <- get_url [PStr "v3"; PStr "server"; PStr "rawcmd"]
           [("cmd", PStr command)] ;;
  _make_request url.

Definition do_create_ban (ip name reason : string) : M unit :=
  url <- get_url [PStr "bans"; PStr "create"]
           [("ip", PStr ip); ("name", PStr name); ("reason", PStr reason)] ;;
  discard (_make_request url).

Definition do_delete_ban (type : BanLookupType) (ban : string) : M unit :=
  url <- get_url [PStr "v2"; PStr "bans"; PStr "destroy"]
           [("ban", PStr ban); ("type", PBan type)] ;;
  discard (_make_request url).

Definition do_world_meteor : M unit :=
  url <- get_url [PStr "world"; PStr "meteor"] [] ;;
  discard (_make_request url).

Definition do_world_save : M unit :=
  url <- get_url [PStr "v2"; PStr "world"; PStr "save"] [] ;;
  discard (_make_request url).

Definition do_world_butcher (killFriendly : bool) : M unit :=
  url <- get_url [PStr "v2"; PStr "world"; PStr "butcher"]
           [("killfriendly", PBool killFriendly)] ;;
  discard (_make_request url).

Definition do_kick_player (player reason : string) : M unit :=
  url <- get_url [PStr "v2"; PStr "players"; PStr "kick"]
           [("reason", PStr reason); ("player", PStr player)] ;;
  discard (_make_request url).

Definition do_ban_player (player reason : string) : M unit :=
  url <- get_url [PStr "v2"; PStr "players"; PStr "ban"]
           [("reason", PStr reason); ("player", PStr player)] ;;
  discard (_make_request url).

Definition do_kill_player (player killer : string) : M unit :=
  kwargs <- keywords [("player", PStr player)] [("from", PStr killer)] ;;
  url <- get_url [PStr "v2"; PStr "players"; PStr "kill"] kwargs ;;
  discard (_make_request url).

Definition do_mute_player (player : string) : M unit :=
  url <- get_url [PStr "v2"; PStr "players"; PStr "mute"]
           [("player", PStr player)] ;;
  discard (_make_request url).

Definition do_unmute_player (player : string) : M unit :=
  url <- get_url [PStr "v2"; PStr "players"; PStr "unmute"]
           [("player", PStr player)] ;;
  discard (_make_request url).

Definition do_group_delete (group : string) : M unit :=
  url <- get_url [PStr "v2"; PStr "groups"; PStr "destroy"]
           [("group", PStr group)] ;;
  discard (_make_request url).

Definition do_group_create (group parent permissions chatColor : string) : M unit :=
  url <- get_url [PStr "v2"; PStr "groups"; PStr "create"]
           [("group", PStr group); ("parent", PStr parent); ("permissions", PStr permissions); ("chatcolor", PStr chatColor)] ;;
  discard (_make_request url).

Definition set_update_user (user : string) (type : UserLookupType) (password group : string) : M unit :=
  url <- get_url [PStr "v2"; PStr "users"; PStr "update"]
           [("user", PStr user); ("type", PStr (Enum.user_value type)); ("password", PStr password); ("group", PStr group)] ;;
  discard (_make_request url).

Definition set_world_bloodmoon (bloodmoon : bool) : M unit :=
  url <- get_url [PStr "world"; PStr "bloodmoon"; PBool bloodmoon] [] ;;
  discard (_make_request url).

Definition set_world_autosaving (autosave : bool) : M unit :=
  url <- get_url [PStr "v2"; PStr "world"; PStr "autosave"; PStr "state";
                  PBool autosave] [] ;;
  discard (_make_request url).

(** [None] for [parent], [chatcolor] or [permissions] stands for the
    empty string *)
Definition set_group_update (group : string)
    (parent chatcolor permissions : option string) : M unit :=
  let parent := match parent with None => "" | Some x => x end in
  let chatcolor := match chatcolor with None => "" | Some x => x end in
  let permissions := match permissions with None => "" | Some x => x end in
  url <- get_url [PStr "v2"; PStr "groups"; PStr "update"]
           [("group", PStr group); ("parent", PStr parent);
            ("chatcolor", PStr chatcolor); ("permissions", PStr permissions)] ;;
  discard (_make_request url).
End Client.

(** *** Calls on a client

    One constructor per public method; [invoke] runs the method and
    [run] a sequence of calls, one after the other on the same client,
    keeping what each call returned or raised. *)

Inductive call :=
| Call_get_token (user password : string)
| Call_get_status
| Call_get_token_status
| Call_get_server_status_v2 (players rules : bool) (filters : option pydict)
| Call_get_active_user_list
| Call_get_user_info (lookup : UserLookupType) (user : string)
| Call_get_ban_information (lookup : BanLookupType) (user : string)
| Call_get_ban_list
| Call_get_player_list
| Call_get_player_info (player : string)
| Call_get_world_info
| Call_get_group_list
| Call_get_group_info (group : string)
| Call_get_server_motd
| Call_get_server_rules
| Call_do_destroy_token
| Call_do_destroy_all_tokens
| Call_do_server_broadcast (message : string)
| Call_do_server_reload
| Call_do_server_off
| Call_do_server_restart
| Call_do_server_rawcmd_v2 (command : string)
| Call_do_server_rawcmd_v3 (command : string)
| Call_do_create_ban (ip name reason : string)
| Call_do_delete_ban (type : BanLookupType) (ban : string)
| Call_do_world_meteor
| Call_do_world_save
| Call_do_world_butcher (killFriendly : bool)
| Call_do_kick_player (player reason : string)
| Call_do_ban_player (player reason : string)
| Call_do_kill_player (player killer : string)
| Call_do_mute_player (player : string)
| Call_do_unmute_player (player : string)
| Call_do_group_delete (group : string)
| Call_do_group_create (group parent permissions chatColor : string)
| Call_set_update_user (user : string) (type : UserLookupType) (password group : string)
| Call_set_world_bloodmoon (bloodmoon : bool)
| Call_set_world_autosaving (autosave : bool)
| Call_set_group_update (group : string) (parent chatcolor permissions : option string).

Inductive retval :=
| RNone
| RBool (b : bool)
| RJson (j : jsonval).

Section Calls.
Variable server : transport.
Variable netloc_check : string -> bool.

Definition returning {A} (f : A -> retval) (m : M A) : M retval :=
  a <- m ;; ret (f a).

Definition invoke (c : call) : M retval :=
  match c with
  | Call_get_token user password =>
      returning (fun _ => RNone) (get_token server netloc_check user password)
  | Call_get_status =>
      returning RJson (get_status server netloc_check)
  | Call_get_token_status =>
      returning RBool (get_token_status server netloc_check)
  | Call_get_server_status_v2 players rules filters =>
      returning RJson (get_server_status_v2 server netloc_check players rules filters)
  | Call_get_active_user_list =>
      returning RJson (get_active_user_list server netloc_check)
  | Call_get_user_info lookup user =>
      returning RJson (get_user_info server netloc_check lookup user)
  | Call_get_ban_information lookup user =>
      returning RJson (get_ban_information server netloc_check lookup user)
  | Call_get_ban_list =>
      returning RJson (get_ban_list server netloc_check)
  | Call_get_player_list =>
      returning RJson (get_player_list server netloc_check)
  | Call_get_player_info player =>
      returning RJson (get_player_info server netloc_check player)
  | Call_get_world_info =>
      returning RJson (get_world_info server netloc_check)
  | Call_get_group_list =>
      returning RJson (get_group_list server netloc_check)
  | Call_get_group_info group =>
      returning RJson (get_group_info server netloc_check group)
  | Call_get_server_motd =>
      returning RJson (get_server_motd server netloc_check)
  | Call_get_server_rules =>
      returning RJson (get_server_rules server netloc_check)
  | Call_do_destroy_token =>
      returning (fun _ => RNone) (do_destroy_token server netloc_check)
  | Call_do_destroy_all_tokens =>
      returning (fun _ => RNone) (do_destroy_all_tokens server netloc_check)
  | Call_do_server_broadcast message =>
      returning (fun _ => RNone) (do_server_broadcast server netloc_check message)
  | Call_do_server_reload =>
      returning (fun _ => RNone) (do_server_reload server netloc_check)
  | Call_do_server_off =>
      returning (fun _ => RNone) (do_server_off server netloc_check)
  | Call_do_server_restart =>
      returning (fun _ => RNone) (do_server_restart server netloc_check)
  | Call_do_server_rawcmd_v2 command =>
      returning RJson (do_server_rawcmd_v2 server netloc_check command)
  | Call_do_server_rawcmd_v3 command =>
      returning RJson (do_server_rawcmd_v3 server netloc_check command)
  | Call_do_create_ban ip name reason =>
      returning (fun _ => RNone) (do_create_ban server netloc_check ip name reason)
  | Call_do_delete_ban type ban =>
      returning (fun _ => RNone) (do_delete_ban server netloc_check type ban)
  | Call_do_world_meteor =>
      returning (fun _ => RNone) (do_world_meteor server netloc_check)
  | Call_do_world_save =>
      returning (fun _ => RNone) (do_world_save server netloc_check)
  | Call_do_world_butcher killFriendly =>
      returning (fun _ => RNone) (do_world_butcher server netloc_check killFriendly)
  | Call_do_kick_player player reason =>
      returning (fun _ => RNone) (do_kick_player server netloc_check player reason)
  | Call_do_ban_player player reason =>
      returning (fun _ => RNone) (do_ban_player server netloc_check player reason)
  | Call_do_kill_player player killer =>
      returning (fun _ => RNone) (do_kill_player server netloc_check player killer)
  | Call_do_mute_player player =>
      returning (fun _ => RNone) (do_mute_player server netloc_check player)
  | Call_do_unmute_player player =>
      returning (fun _ => RNone) (do_unmute_player server netloc_check player)
  | Call_do_group_delete group =>
      returning (fun _ => RNone) (do_group_delete server netloc_check group)
  | Call_do_group_create group parent permissions chatColor =>
      returning (fun _ => RNone) (do_group_create server netloc_check group parent permissions chatColor)
  | Call_set_update_user user type password group =>
      returning (fun _ => RNone) (set_update_user server netloc_check user type password group)
  | Call_set_world_bloodmoon bloodmoon =>
      returning (fun _ => RNone) (set_world_bloodmoon server netloc_check bloodmoon)
  | Call_set_world_autosaving autosave =>
      returning (fun _ => RNone) (set_world_autosaving server netloc_check autosave)
  | Call_set_group_update group parent chatcolor permissions =>
      returning (fun _ => RNone) (set_group_update server netloc_check group parent chatcolor permissions)
  end.

Fixpoint run (cs : list call) (w : world)
  : list (call * outcome retval) * world :=
  match cs with
  | [] => ([], w)
  | c :: rest =>
      let (o, w1) := invoke c w in
      let (tr, w2) := run rest w1 in
      ((c, o) :: tr, w2)
  end.
End Calls.


End TShock.

(* ================================================================== *)
(** ** Reading a built URL back

    The parameters [get_url] wrote after the path: the text that follows
    the last question mark of the URL ([urlencode] never writes one), its
    items separated by [&], key and value by the first [=], both unquoted.
    This is the part of the URL that [get_url] appended; it is the query
    component of the URL, as [Receiver] below cuts it, when no path
    segment holds a question mark or a hash (lemma [readers_agree]). *)

Module Query.
Import urllib.

Definition hex_value (c : ascii) : option nat :=
  if is_digit c then Some (nat_of_ascii c - 48)%nat
  else if in_range 65 70 c then Some (nat_of_ascii c - 55)%nat
  else if in_range 97 102 c then Some (nat_of_ascii c - 87)%nat
  else None.

Fixpoint unquote_plus (s : string) : string :=
  match s with
  | "" => ""
  | String c r =>
      if Ascii.eqb c "+" then String " " (unquote_plus r)
      else if Ascii.eqb c "%" then
        match r with
        | String h (String l r') =>
            match hex_value h, hex_value l with
            | Some a, Some b =>
                String (ascii_of_nat (16 * a + b)) (unquote_plus r')
            | _, _ => String c (unquote_plus r)
            end
        | _ => String c (unquote_plus r)
        end
      else String c (unquote_plus r)
  end.

Definition read_item (item : string) : string * string :=
  match split_once "=" item with
  | Some (k, v) => (unquote_plus k, unquote_plus v)
  | None => (unquote_plus item, "")
  end.

Definition query_string (url : string) : string :=
  match rsplit_once "?" url with
  | Some (_, q) => q
  | None => ""
  end.

Definition read_query (url : string) : list (string * string) :=
  map read_item (split "&" (query_string url)).

Fixpoint assoc (key : string) (l : list (string * string)) : option string :=
  match l with
  | [] => None
  | (k, v) :: r => if String.eqb k key then Some v else assoc key r
  end.

(** the value of the first item named [key] in the query of [url] *)
Definition query_param (url key : string) : option string :=
  assoc key (read_query url).
End Query.

(** ** The query a receiver finds in a URL

    The query component as [urlsplit] cuts it: what follows the first
    question mark, up to the fragment.  Its items are read as in [Query]. *)
Module Receiver.
Section Read.
Variable netloc_check : string -> bool.

Definition url_query (url : string) : option string :=
  match urllib.urlsplit netloc_check url "" with
  | Return r => Some (urllib.s_query r)
  | Raise _ => None
  end.

Definition url_items (url : string) : list (string * string) :=
  match url_query url with
  | Some q => map Query.read_item (urllib.split "&" q)
  | None => []
  end.

End Read.
End Receiver.


(** [self.urls.token] of the client in [w] *)
Definition builder_token (w : TShock.world) : pyval :=
  RequestBuilder.token (TShock.urls (TShock.self w)).

(** ** Path arguments without a query or fragment mark

    [get_url] puts its positional arguments into the path as they are.  A
    segment is clean when it holds no question mark and no hash; a value
    that is not a [str] never reaches a URL.  The positional arguments a
    caller controls are the password of [get_token] and, through the
    stored token, the last segment of [do_destroy_token]. *)
Definition segment_ok (s : string) : bool :=
  negb (urllib.has_char "?" s) && negb (urllib.has_char "#" s).

(** the same, character by character *)
Definition mark_free (c : ascii) : bool :=
  negb (Ascii.eqb c "?") && negb (Ascii.eqb c "#").

Definition arg_ok (v : pyval) : bool :=
  match v with PStr s => segment_ok s | _ => true end.


(** ** Plain hosts and path segments

    The inputs the endpoint catalogue is written for: a location
    [host:port] of ASCII characters without a slash, question mark, hash,
    bracket, tab or line break; segments that are not empty, are not a dot
    segment and hold no slash, question mark, hash, semicolon, tab or line
    break. *)
Definition host_char (c : ascii) : bool :=
  (nat_of_ascii c <? 128)%nat && negb (urllib.one_of "/?#[]" c)
  && negb (urllib.unsafe_byte c).
Definition segment_char (c : ascii) : bool :=
  negb (urllib.one_of "/?#;" c) && negb (urllib.unsafe_byte c).
Definition path_char (c : ascii) : bool :=
  negb (urllib.one_of "?#;" c) && negb (urllib.unsafe_byte c).
Definition plain_segment (s : string) : bool :=
  urllib.nonempty s && urllib.all_chars segment_char s
  && negb (String.eqb s ".") && negb (String.eqb s "..").

(** ** Classes of calls and the location of a builder *)

(** [host:port] as [get_url] writes it into the base *)
Definition location (b : RequestBuilder.t) : string :=
  py_str (RequestBuilder.ip b) ++ ":" ++ py_str (RequestBuilder.post b).

(** the methods that call [_make_request] and return [None], the [do_] and
    [set_] methods without a [return] *)
Definition returns_none (c : TShock.call) : bool :=
  match c with
  | TShock.Call_do_destroy_token | TShock.Call_do_destroy_all_tokens
  | TShock.Call_do_server_broadcast _ | TShock.Call_do_server_reload
  | TShock.Call_do_server_off | TShock.Call_do_server_restart
  | TShock.Call_do_create_ban _ _ _ | TShock.Call_do_delete_ban _ _
  | TShock.Call_do_world_meteor | TShock.Call_do_world_save
  | TShock.Call_do_world_butcher _ | TShock.Call_do_kick_player _ _
  | TShock.Call_do_ban_player _ _ | TShock.Call_do_kill_player _ _
  | TShock.Call_do_mute_player _ | TShock.Call_do_unmute_player _
  | TShock.Call_do_group_delete _ | TShock.Call_do_group_create _ _ _ _
  | TShock.Call_set_update_user _ _ _ _ | TShock.Call_set_world_bloodmoon _
  | TShock.Call_set_world_autosaving _ | TShock.Call_set_group_update _ _ _ _ =>
      true
  | _ => false
  end.

(** the first character of a path segment that keeps the path of the
    request from starting with two slashes: not a slash, and not a tab or
    line break, which [urlsplit] would remove *)
Definition leading_char (c : ascii) : bool :=
  negb (Ascii.eqb c "/") && negb (urllib.unsafe_byte c).

(* ================================================================== *)
(** ** Sample clients, servers and envelopes *)

Module Sample.
(** [TShock("1.2.3.4", 7878)], no request made yet *)
Definition client : TShock.t := TShock.__init__ (PStr "1.2.3.4") (PInt 7878).
Definition fresh : TShock.world := TShock.mkWorld client [].

(** a server that gives the same reply to every request *)
Definition always (r : reply) : transport := fun _ _ => r.
Definition answers (d : pydict) : transport := always (Responded (Some (JDict d))).

(** an interpreter whose extra checks reject every location that is not
    plain *)
Definition strict : string -> bool := fun _ => false.

Definition ok_users : pydict := [("status", PStr "200"); ("activeusers", PStr "Bob")].
Definition soft_failure : pydict :=
  [("status", PStr "400"); ("response", PStr "invalid group")].
Definition not_found : pydict := [("status", PStr "404")].
Definition boom : pydict := [("status", PStr "500"); ("error", PStr "boom")].
Definition bare_500 : pydict := [("status", PStr "500")].
Definition login : pydict := [("status", PStr "200"); ("token", PStr "abc")].

Definition status_url : string := "http://1.2.3.4:7878/status?token=".
Definition tokentest_url : string := "http://1.2.3.4:7878/tokentest?token=".
End Sample.

(* ================================================================== *)
(** * Properties *)

(** ** Strings *)

Section StringFacts.
Import urllib.

Lemma has_char_app c a b :
  has_char c (a ++ b) = has_char c a || has_char c b.
Proof.
  unfold has_char. induction a as [|x a IH]; simpl; [reflexivity|].
  rewrite IH. now rewrite orb_assoc.
Qed.

Lemma has_char_cons c x s :
  has_char c (String x s) = Ascii.eqb c x || has_char c s.
Proof. reflexivity. Qed.

Lemma split_once_absent sep s :
  has_char sep s = false -> split_once sep s = None.
Proof.
  induction s as [|c s IH]; simpl; [reflexivity|].
  rewrite has_char_cons. intros H. apply orb_false_iff in H as [Hc Hs].
  rewrite Ascii.eqb_sym, Hc, (IH Hs). reflexivity.
Qed.

Lemma split_once_app sep a b :
  has_char sep a = false ->
  split_once sep (a ++ String sep b) = Some (a, b).
Proof.
  induction a as [|c a IH]; simpl; intros H.
  - now rewrite Ascii.eqb_refl.
  - rewrite has_char_cons in H. apply orb_false_iff in H as [Hc Ha].
    rewrite Ascii.eqb_sym, Hc, (IH Ha). reflexivity.
Qed.

Lemma rsplit_once_absent sep s :
  has_char sep s = false -> rsplit_once sep s = None.
Proof.
  induction s as [|c s IH]; simpl; [reflexivity|].
  rewrite has_char_cons. intros H. apply orb_false_iff in H as [Hc Hs].
  rewrite (IH Hs), Ascii.eqb_sym, Hc. reflexivity.
Qed.

Lemma rsplit_once_app sep a b :
  has_char sep b = false ->
  rsplit_once sep (a ++ String sep b) = Some (a, b).
Proof.
  intros Hb. induction a as [|c a IH]; simpl.
  - now rewrite (rsplit_once_absent _ _ Hb), Ascii.eqb_refl.
  - now rewrite IH.
Qed.

Lemma split_absent sep s :
  has_char sep s = false -> split sep s = [s].
Proof.
  induction s as [|c s IH]; simpl; [reflexivity|].
  rewrite has_char_cons. intros H. apply orb_false_iff in H as [Hc Hs].
  rewrite Ascii.eqb_sym, Hc, (IH Hs). reflexivity.
Qed.

Lemma split_app sep a b :
  has_char sep a = false ->
  split sep (a ++ String sep b) = a :: split sep b.
Proof.
  induction a as [|c a IH]; simpl; intros H.
  - now rewrite Ascii.eqb_refl.
  - rewrite has_char_cons in H. apply orb_false_iff in H as [Hc Ha].
    rewrite Ascii.eqb_sym, Hc, (IH Ha). reflexivity.
Qed.

(** [split] undoes [join] when no item holds the separator *)
Lemma split_concat sep l :
  l <> [] ->
  Forall (fun x => has_char sep x = false) l ->
  split sep (String.concat (String sep "") l) = l.
Proof.
  induction l as [|x l IH]; [congruence|]. intros _ Hall.
  inversion Hall as [|? ? Hx Hl]; subst.
  destruct l as [|y l].
  - simpl. now apply split_absent.
  - change (String.concat (String sep "") (x :: y :: l))
      with (x ++ String sep (String.concat (String sep "") (y :: l))).
    rewrite (split_app _ _ _ Hx), IH; [reflexivity|congruence|assumption].
Qed.
End StringFacts.

(** ** Quoting and reading back *)

Section QuoteFacts.
Import urllib Query.

Local Ltac each_byte c :=
  destruct c as [b0 b1 b2 b3 b4 b5 b6 b7];
  destruct b0, b1, b2, b3, b4, b5, b6, b7.

(** a quoted byte holds none of the characters that structure a URL's
    query *)
Lemma quote_byte_clean c :
  has_char "?" (quote_byte c) = false
  /\ has_char "&" (quote_byte c) = false
  /\ has_char "=" (quote_byte c) = false.
Proof. each_byte c; repeat split; reflexivity. Qed.

Lemma quote_plus_clean s :
  has_char "?" (quote_plus s) = false
  /\ has_char "&" (quote_plus s) = false
  /\ has_char "=" (quote_plus s) = false.
Proof.
  induction s as [|c s (IH1 & IH2 & IH3)]; simpl; [now repeat split|].
  destruct (quote_byte_clean c) as (H1 & H2 & H3).
  rewrite !has_char_app, H1, H2, H3, IH1, IH2, IH3. now repeat split.
Qed.

Lemma unquote_quote_byte c s :
  unquote_plus (quote_byte c ++ s) = String c (unquote_plus s).
Proof. each_byte c; reflexivity. Qed.

Lemma unquote_quote_plus s : unquote_plus (quote_plus s) = s.
Proof.
  induction s as [|c s IH]; simpl; [reflexivity|].
  now rewrite unquote_quote_byte, IH.
Qed.

Lemma encode_item_clean kv :
  has_char "?" (encode_item kv) = false
  /\ has_char "&" (encode_item kv) = false.
Proof.
  unfold encode_item.
  destruct (quote_plus_clean (fst kv)) as (K1 & K2 & _).
  destruct (quote_plus_clean (py_str (snd kv))) as (V1 & V2 & _).
  rewrite !has_char_app, K1, K2, V1, V2. now split.
Qed.

Lemma read_encode_item kv :
  read_item (encode_item kv) = (fst kv, py_str (snd kv)).
Proof.
  unfold read_item, encode_item.
  destruct (quote_plus_clean (fst kv)) as (_ & _ & K).
  change (quote_plus (fst kv) ++ "=" ++ quote_plus (py_str (snd kv)))
    with (quote_plus (fst kv) ++ String "=" (quote_plus (py_str (snd kv)))).
  rewrite (split_once_app _ _ _ K), !unquote_quote_plus. reflexivity.
Qed.

Lemma urlencode_clean d : has_char "?" (urlencode d) = false.
Proof.
  unfold urlencode. induction d as [|kv d IH]; [reflexivity|].
  destruct (encode_item_clean kv) as (H & _).
  destruct d as [|kv' d]; [exact H|].
  change (String.concat "&" (map encode_item (kv :: kv' :: d)))
    with (encode_item kv ++ String "&" (String.concat "&" (map encode_item (kv' :: d)))).
  rewrite has_char_app, H, has_char_cons, IH. reflexivity.
Qed.

Lemma assoc_read d key :
  assoc key (map (fun kv => (fst kv, py_str (snd kv))) d)
  = option_map py_str (dict_get d key).
Proof.
  induction d as [|[k v] d IH]; simpl; [reflexivity|].
  destruct (String.eqb k key); [reflexivity|exact IH].
Qed.

(** Reading back the query that [urlencode] wrote gives the dict, every
    value as its [str()]. *)
Lemma query_param_urlencode prefix d key :
  d <> [] ->
  query_param (prefix ++ "?" ++ urlencode d) key
  = option_map py_str (dict_get d key).
Proof.
  intros Hd. unfold query_param, read_query, query_string.
  change (prefix ++ "?" ++ urlencode d) with (prefix ++ String "?" (urlencode d)).
  rewrite (rsplit_once_app _ _ _ (urlencode_clean d)).
  unfold urlencode. rewrite split_concat.
  - rewrite map_map, (map_ext _ _ read_encode_item). apply assoc_read.
  - destruct d; [congruence|discriminate].
  - apply Forall_forall. intros x Hx. apply in_map_iff in Hx as (kv & <- & _).
    apply encode_item_clean.
Qed.
End QuoteFacts.

(** ** Dictionaries *)

Lemma dict_get_set_same d k v : dict_get (dict_set d k v) k = Some v.
Proof.
  induction d as [|[k' v'] d IH]; simpl.
  - now rewrite String.eqb_refl.
  - destruct (String.eqb k' k) eqn:E; simpl.
    + now rewrite String.eqb_refl.
    + now rewrite E.
Qed.

Lemma dict_get_set_other d k v k' :
  k' <> k -> dict_get (dict_set d k v) k' = dict_get d k'.
Proof.
  intros Hne. induction d as [|[k0 v0] d IH]; simpl.
  - destruct (String.eqb_spec k k'); [congruence|reflexivity].
  - destruct (String.eqb_spec k0 k) as [->|]; simpl.
    + destruct (String.eqb_spec k k'); [congruence|reflexivity].
    + now rewrite IH.
Qed.

Lemma dict_set_nonempty d k v : dict_set d k v <> [].
Proof. destruct d as [|[k' v'] d]; simpl; [|destruct (String.eqb k' k)]; discriminate. Qed.

(** a key that is absent is appended at the end *)
Lemma dict_set_absent d k v :
  dict_get d k = None -> dict_set d k v = (d ++ [(k, v)])%list.
Proof.
  induction d as [|[k' v'] d IH]; simpl; [reflexivity|].
  destruct (String.eqb k' k); [discriminate|]. intros H. now rewrite IH.
Qed.

(** ** The URL builder *)

Section BuilderFacts.
Variable netloc_check : string -> bool.
Import RequestBuilder.

Lemma get_url_inv self args kwargs url :
  get_url netloc_check self args kwargs = Return url ->
  exists segments joined,
    all_strs args = Some segments
    /\ urllib.urljoin netloc_check
         ("http://" ++ py_str (ip self) ++ ":" ++ py_str (post self))
         ("/" ++ String.concat "/" segments) = Return joined
    /\ url = joined ++ "?" ++ urllib.urlencode (dict_set kwargs "token" (token self)).
Proof.
  unfold get_url, str_join. destruct (all_strs args) as [segments|]; [|discriminate].
  destruct (urllib.urljoin _ _ _) as [joined|] eqn:J; [|discriminate].
  intros [= <-]. now exists segments, joined.
Qed.

(** every parameter of a built URL reads back as the keyword given for
    it, and [token] as the builder's token *)
Lemma get_url_query self args kwargs url key :
  get_url netloc_check self args kwargs = Return url ->
  Query.query_param url key
  = option_map py_str (dict_get (dict_set kwargs "token" (token self)) key).
Proof.
  intros H. apply get_url_inv in H as (segments & joined & _ & _ & ->).
  apply query_param_urlencode, dict_set_nonempty.
Qed.

Lemma get_url_token self args kwargs url :
  get_url netloc_check self args kwargs = Return url ->
  Query.query_param url "token" = Some (py_str (token self)).
Proof.
  intros H. rewrite (get_url_query _ _ _ _ _ H), dict_get_set_same. reflexivity.
Qed.

(** a positional argument that is not a [str] stops [get_url] at the
    join *)
Lemma get_url_not_str self args kwargs :
  all_strs args = None ->
  get_url netloc_check self args kwargs = Raise TypeError.
Proof. intros H. unfold get_url, str_join. now rewrite H. Qed.
End BuilderFacts.

(** ** The request validator *)

Section ValidatorFacts.
Variable server : transport.
Import TShock.

Lemma py_eq_str_true v s : py_eq_str v s = true <-> v = PStr s.
Proof.
  destruct v; simpl; try (split; [discriminate|congruence]).
  split.
  - intros H. apply String.eqb_eq in H. now subst.
  - intros [= ->]. apply String.eqb_refl.
Qed.

Lemma py_eq_str_false v s : py_eq_str v s = false <-> v <> PStr s.
Proof.
  rewrite <- py_eq_str_true. destruct (py_eq_str v s); split; congruence.
Qed.

(** What [_make_request] does, by the reply of the transport; the
    request is recorded whatever the reply. *)
Lemma make_request_eq url w :
  _make_request server url w =
  (match server (sent w) url with
   | Failed =>
       Raise (ApiException "An error occurred in making the request to the server.")
   | Responded None => Raise JSONDecodeError
   | Responded (Some (JOther _)) => Raise TypeError
   | Responded (Some (JDict d)) =>
       match dict_get d "status" with
       | None => Raise (KeyError "status")
       | Some status =>
           if py_eq_str status "404" then
             Raise (ApiException "404 Error. Are you sure the server has REST enabled?")
           else if py_in_strs status ["200"; "400"] then Return (JDict d)
           else match dict_get d "error" with
                | None => Raise (KeyError "error")
                | Some error =>
                    Raise (ApiException
                      ("Error in request. Server returned status: "
                       ++ py_str status ++ " With error: " ++ py_str error))
                end
       end
   end,
   mkWorld (self w) (sent w ++ [url])).
Proof.
  unfold _make_request, bind, try_except, req_get, res_json, lift, raise, ret,
    getitem, Exception, error_message.
  destruct (server (sent w) url) as [|[[d|v]|]]; try reflexivity.
  destruct (dict_get d "status") as [status|]; [|reflexivity].
  destruct (py_eq_str status "404"); [reflexivity|].
  destruct (py_in_strs status ["200"; "400"]); [reflexivity|].
  destruct (dict_get d "error"); reflexivity.
Qed.

Lemma make_request_world url w :
  snd (_make_request server url w) = mkWorld (self w) (sent w ++ [url]).
Proof. now rewrite make_request_eq. Qed.

(** when [_make_request] returns, it returns the dict the server sent,
    and that dict has status 200 or 400 *)
Lemma make_request_Return url w r w' :
  _make_request server url w = (Return r, w') ->
  exists d,
    r = JDict d
    /\ server (sent w) url = Responded (Some (JDict d))
    /\ (dict_get d "status" = Some (PStr "200")
        \/ dict_get d "status" = Some (PStr "400"))
    /\ w' = mkWorld (self w) (sent w ++ [url]).
Proof.
  rewrite make_request_eq.
  destruct (server (sent w) url) as [|[[d|v]|]]; try discriminate.
  destruct (dict_get d "status") as [status|] eqn:S; [|discriminate].
  destruct (py_eq_str status "404"); [discriminate|].
  destruct (py_in_strs status ["200"; "400"]) eqn:E.
  - intros [= <- <-]. exists d. split; [reflexivity|]. split; [reflexivity|].
    split; [|reflexivity].
    unfold py_in_strs in E. simpl in E. rewrite orb_false_r in E.
    apply orb_true_iff in E as [E|E]; apply py_eq_str_true in E; subst; auto.
  - destruct (dict_get d "error"); discriminate.
Qed.
End ValidatorFacts.

(* ================================================================== *)
(** * The claims *)

Section ValidatorClaims.
Import TShock.

(** C1.  When the decoded envelope is a dict whose [status] is the string
    "200" or "400", [_make_request] returns that very dict, keys and
    values as the server sent them, and raises nothing; a "400" envelope
    is a normal result. *)
Theorem make_request_returns_200_400 :
  forall (server : transport) url w d status,
    server (sent w) url = Responded (Some (JDict d)) ->
    dict_get d "status" = Some (PStr status) ->
    status = "200" \/ status = "400" ->
    _make_request server url w
    = (Return (JDict d), mkWorld (self w) (sent w ++ [url])).
Proof.
  intros server url w d status Hreply Hstatus Hcode.
  rewrite make_request_eq, Hreply, Hstatus.
  destruct Hcode as [-> | ->]; reflexivity.
Qed.

Lemma make_request_returns_200_400_witness :
  dict_get Sample.soft_failure "status" = Some (PStr "400")
  /\ _make_request (Sample.answers Sample.soft_failure) Sample.status_url Sample.fresh
     = (Return (JDict [("status", PStr "400"); ("response", PStr "invalid group")]),
        mkWorld Sample.client [Sample.status_url]).
Proof.
  split; [reflexivity|].
  apply (make_request_returns_200_400
           (Sample.answers Sample.soft_failure) Sample.status_url Sample.fresh
           Sample.soft_failure "400");
    [reflexivity | reflexivity | right; reflexivity].
Defined.

(** C2, as the code has it.  When the decoded envelope is a dict that
    has an [error] field and whose [status] is none of "200", "400" and
    "404", [_make_request] raises [ApiException] with the message
    "Error in request. Server returned status: S With error: E", S and E
    being [str()] of the two fields (the fields themselves when they are
    strings). *)
Theorem make_request_raises_other_status :
  forall (server : transport) url w d status error,
    server (sent w) url = Responded (Some (JDict d)) ->
    dict_get d "status" = Some status ->
    status <> PStr "200" -> status <> PStr "400" -> status <> PStr "404" ->
    dict_get d "error" = Some error ->
    _make_request server url w
    = (Raise (ApiException
                ("Error in request. Server returned status: " ++ py_str status
                 ++ " With error: " ++ py_str error)),
       mkWorld (self w) (sent w ++ [url])).
Proof.
  intros server url w d status error Hreply Hstatus H200 H400 H404 Herror.
  rewrite make_request_eq, Hreply, Hstatus, Herror.
  apply py_eq_str_false in H200, H400, H404.
  unfold py_in_strs. simpl. now rewrite H200, H400, H404.
Qed.

Lemma make_request_raises_other_status_witness :
  _make_request (Sample.answers Sample.boom) Sample.status_url Sample.fresh
  = (Raise (ApiException
              "Error in request. Server returned status: 500 With error: boom"),
     mkWorld Sample.client [Sample.status_url]).
Proof.
  apply (make_request_raises_other_status
           (Sample.answers Sample.boom) Sample.status_url Sample.fresh
           Sample.boom (PStr "500") (PStr "boom"));
    try reflexivity; discriminate.
Defined.

(** C2 as stated fails: the envelope with status "500" and no [error]
    field makes [_make_request] raise [KeyError], not [ApiException]. *)
Lemma make_request_500_without_error_field :
  dict_get Sample.bare_500 "status" = Some (PStr "500")
  /\ fst (_make_request (Sample.answers Sample.bare_500) Sample.status_url Sample.fresh)
     = Raise (KeyError "error").
Proof. split; reflexivity. Qed.

(** C3.  When the decoded envelope is a dict whose [status] is the string
    "404", [_make_request] raises the not-found [ApiException] and
    returns nothing. *)
Theorem make_request_raises_404 :
  forall (server : transport) url w d,
    server (sent w) url = Responded (Some (JDict d)) ->
    dict_get d "status" = Some (PStr "404") ->
    _make_request server url w
    = (Raise (ApiException "404 Error. Are you sure the server has REST enabled?"),
       mkWorld (self w) (sent w ++ [url])).
Proof.
  intros server url w d Hreply Hstatus.
  now rewrite make_request_eq, Hreply, Hstatus.
Qed.

Lemma make_request_raises_404_witness :
  _make_request (Sample.answers Sample.not_found) Sample.status_url Sample.fresh
  = (Raise (ApiException "404 Error. Are you sure the server has REST enabled?"),
     mkWorld Sample.client [Sample.status_url]).
Proof.
  apply (make_request_raises_404
           (Sample.answers Sample.not_found) Sample.status_url Sample.fresh
           Sample.not_found); reflexivity.
Defined.

(** C6, as the code has it.  A body that is not JSON makes
    [_make_request] let the decoder's own exception escape, which is not
    an [ApiException]; only a failure of the GET itself is turned into
    [ApiException]. *)
Theorem make_request_decoding_failure_escapes :
  forall (server : transport) url w,
    (server (sent w) url = Responded None ->
     _make_request server url w
     = (Raise JSONDecodeError, mkWorld (self w) (sent w ++ [url])))
    /\ (server (sent w) url = Failed ->
        _make_request server url w
        = (Raise (ApiException
                    "An error occurred in making the request to the server."),
           mkWorld (self w) (sent w ++ [url]))).
Proof.
  intros server url w. split; intros Hreply; now rewrite make_request_eq, Hreply.
Qed.

Lemma make_request_decoding_failure_escapes_witness :
  _make_request (Sample.always (Responded None)) Sample.status_url Sample.fresh
  = (Raise JSONDecodeError, mkWorld Sample.client [Sample.status_url])
  /\ _make_request (Sample.always Failed) Sample.status_url Sample.fresh
     = (Raise (ApiException "An error occurred in making the request to the server."),
        mkWorld Sample.client [Sample.status_url]).
Proof.
  split.
  - apply (proj1 (make_request_decoding_failure_escapes
                    (Sample.always (Responded None)) Sample.status_url Sample.fresh)).
    reflexivity.
  - apply (proj2 (make_request_decoding_failure_escapes
                    (Sample.always Failed) Sample.status_url Sample.fresh)).
    reflexivity.
Defined.

(** C6 as stated fails: on a body that is not JSON the exception raised
    is not the [ApiException] that a failed connection gives. *)
Lemma make_request_not_json_is_untyped :
  fst (_make_request (Sample.always (Responded None)) Sample.status_url Sample.fresh)
  = Raise JSONDecodeError
  /\ is_ApiException JSONDecodeError = false
  /\ fst (_make_request (Sample.always Failed) Sample.status_url Sample.fresh)
     = Raise (ApiException "An error occurred in making the request to the server.").
Proof. repeat split; reflexivity. Qed.
End ValidatorClaims.

Section EndpointClaims.
Import TShock.
Variable server : transport.
Variable netloc_check : string -> bool.

(** unfolding of the monad in a goal or a hypothesis *)
Local Ltac unfold_M :=
  unfold returning, discard, keywords, urls_token, store_urls_token,
    bind, ret, raise, lift, try_except, TShock.get_url in *.

(** C7, as the code has it.  Once the URL of [tokentest] is built,
    [get_token_status] returns [True] when [_make_request] returns and
    [False] when it raises [ApiException]; an exception of another class
    (a body that is not JSON, an envelope without the field read)
    propagates to the caller. *)
Theorem get_token_status_converts_ApiException :
  forall w url,
    RequestBuilder.get_url netloc_check (urls (self w)) [PStr "tokentest"] []
    = Return url ->
    get_token_status server netloc_check w
    = match _make_request server url w with
      | (Return _, w') => (Return true, w')
      | (Raise (ApiException _), w') => (Return false, w')
      | (Raise e, w') => (Raise e, w')
      end.
Proof.
  intros w url Hurl. unfold get_token_status. unfold_M. rewrite Hurl.
  destruct (_make_request server url w) as [[r|e] w']; [reflexivity|].
  destruct e; reflexivity.
Qed.

(** C8.  For every boolean, [set_world_bloodmoon] and
    [set_world_autosaving] raise [TypeError] at the join of the path
    segments; the world is as before, so no request has been made. *)
Theorem set_world_bool_segment_raises_TypeError :
  forall (b : bool) w,
    set_world_bloodmoon server netloc_check b w = (Raise TypeError, w)
    /\ set_world_autosaving server netloc_check b w = (Raise TypeError, w).
Proof.
  intros b w. unfold set_world_bloodmoon, set_world_autosaving. unfold_M.
  rewrite !get_url_not_str by reflexivity. split; reflexivity.
Qed.

(** C10.  Whatever [do_destroy_token] returns or raises, the client is
    left with the token it had: the field of the builder and the field
    of the client keep their values. *)
Theorem do_destroy_token_keeps_token :
  forall w,
    let w' := snd (do_destroy_token server netloc_check w) in
    RequestBuilder.token (urls (self w')) = RequestBuilder.token (urls (self w))
    /\ token (self w') = token (self w).
Proof.
  intros w. unfold do_destroy_token. unfold_M. cbv zeta.
  destruct (RequestBuilder.get_url _ _ _ _) as [url|e]; [|split; reflexivity].
  pose proof (make_request_world server url w) as Hw.
  destruct (_make_request server url w) as [[r|e] w1]; simpl in *; subst w1;
    split; reflexivity.
Qed.
End EndpointClaims.

(** C7 on samples: a "404" envelope gives [False], a "200" envelope
    [True]. *)
Lemma get_token_status_converts_ApiException_witness :
  TShock.get_token_status (Sample.answers Sample.not_found) Sample.strict Sample.fresh
  = (Return false, TShock.mkWorld Sample.client [Sample.tokentest_url])
  /\ TShock.get_token_status (Sample.answers Sample.ok_users) Sample.strict Sample.fresh
     = (Return true, TShock.mkWorld Sample.client [Sample.tokentest_url]).
Proof.
  split.
  - exact (get_token_status_converts_ApiException
             (Sample.answers Sample.not_found) Sample.strict Sample.fresh
             Sample.tokentest_url eq_refl).
  - exact (get_token_status_converts_ApiException
             (Sample.answers Sample.ok_users) Sample.strict Sample.fresh
             Sample.tokentest_url eq_refl).
Defined.

(** C7 as stated fails: the server answers with a body that is not JSON,
    [_make_request] raises, and [get_token_status] raises too instead of
    returning [False]. *)
Lemma get_token_status_lets_decoding_error_through :
  fst (TShock._make_request (Sample.always (Responded None))
         Sample.tokentest_url Sample.fresh) = Raise JSONDecodeError
  /\ fst (TShock.get_token_status (Sample.always (Responded None))
            Sample.strict Sample.fresh) = Raise JSONDecodeError.
Proof. split; reflexivity. Qed.

(** ** The lookup-type parameter *)

Section LookupType.
Import TShock.
Variable server : transport.
Variable netloc_check : string -> bool.

Local Ltac unfold_M :=
  unfold returning, discard, keywords, urls_token, store_urls_token,
    bind, ret, raise, lift, try_except, TShock.get_url in *.

Lemma sent_one_more (l : list string) a b :
  (l ++ [a] = l ++ [b])%list -> a = b.
Proof. intros H. apply app_inv_head in H. now injection H. Qed.

Lemma sent_not_more (l : list string) a : l <> (l ++ [a])%list.
Proof.
  intros H. apply (f_equal (@List.length string)) in H.
  rewrite length_app in H. simpl in H. lia.
Qed.

(** after [url <- get_url args kwargs ;; k (_make_request url)], where
    [k] leaves the world alone, the request made is the URL built *)
Local Ltac sent_url H url :=
  match type of H with
  | context [RequestBuilder.get_url ?c ?b ?a ?k] =>
      let G := fresh "G" in
      let built := fresh "built" in
      destruct (RequestBuilder.get_url c b a k) as [built|] eqn:G;
      [ match type of H with
        | context [_make_request ?s built ?w] =>
            let Hw := fresh "Hw" in
            pose proof (make_request_world s built w) as Hw;
            destruct (_make_request s built w) as [[?|?] ?];
            simpl in Hw, H; subst; simpl in H;
            apply sent_one_more in H; subst built
        end
      | simpl in H; exfalso; exact (sent_not_more _ _ H) ]
  end.

(** [get_user_info], [get_ban_information] and [set_update_user] pass
    [lookup.value]: the request carries the string constant of the
    member. *)
Lemma get_user_info_type lookup user w url :
  sent (snd (get_user_info server netloc_check lookup user w)) = (sent w ++ [url])%list ->
  Query.query_param url "type" = Some (Enum.user_value lookup).
Proof.
  unfold get_user_info. unfold_M. intros H.
  sent_url H url; now rewrite (get_url_query _ _ _ _ _ "type" G).
Qed.

Lemma get_ban_information_type lookup user w url :
  sent (snd (get_ban_information server netloc_check lookup user w)) = (sent w ++ [url])%list ->
  Query.query_param url "type" = Some (Enum.ban_value lookup).
Proof.
  unfold get_ban_information. unfold_M. intros H.
  sent_url H url; now rewrite (get_url_query _ _ _ _ _ "type" G).
Qed.

Lemma set_update_user_type user type password group w url :
  sent (snd (set_update_user server netloc_check user type password group w))
  = (sent w ++ [url])%list ->
  Query.query_param url "type" = Some (Enum.user_value type).
Proof.
  unfold set_update_user. unfold_M. intros H.
  sent_url H url; now rewrite (get_url_query _ _ _ _ _ "type" G).
Qed.

(** [do_delete_ban] passes the member itself, and [urlencode] writes its
    [str()]: the class name, a dot and the member name. *)
Lemma do_delete_ban_type type ban w url :
  sent (snd (do_delete_ban server netloc_check type ban w)) = (sent w ++ [url])%list ->
  Query.query_param url "type" = Some (Enum.ban_str type).
Proof.
  unfold do_delete_ban. unfold_M. intros H.
  sent_url H url; now rewrite (get_url_query _ _ _ _ _ "type" G).
Qed.

Lemma ban_str_is_not_value type : Enum.ban_str type <> Enum.ban_value type.
Proof. destruct type; discriminate. Qed.
End LookupType.

(** C9 at a failing input.  [do_delete_ban(BanLookupType.Name, "griefer")]
    on a fresh client requests a URL whose [type] parameter is
    "BanLookupType.Name", not the constant "name" of the member; the
    sibling [get_ban_information] sends "name" for the same member. *)
Theorem do_delete_ban_sends_member_name :
  TShock.sent (snd (TShock.do_delete_ban (Sample.answers Sample.ok_users) Sample.strict
                      BanLookupType_Name "griefer" Sample.fresh))
  = ["http://1.2.3.4:7878/v2/bans/destroy?ban=griefer&type=BanLookupType.Name&token="]
  /\ Query.query_param
       "http://1.2.3.4:7878/v2/bans/destroy?ban=griefer&type=BanLookupType.Name&token="
       "type" = Some "BanLookupType.Name"
  /\ TShock.sent (snd (TShock.get_ban_information (Sample.answers Sample.ok_users)
                         Sample.strict BanLookupType_Name "griefer" Sample.fresh))
     = ["http://1.2.3.4:7878/v2/bans/read?type=name&ban=griefer&token="].
Proof. repeat split; vm_compute; reflexivity. Qed.

(** ** The form of a built URL *)

Section PlainForm.
Import urllib.
Variable netloc_check : string -> bool.

Lemma append_assoc (a b c : string) : (a ++ b) ++ c = a ++ (b ++ c).
Proof. induction a as [|x a IH]; simpl; [reflexivity|now rewrite IH]. Qed.

Lemma all_chars_cons p c s : all_chars p (String c s) = p c && all_chars p s.
Proof. reflexivity. Qed.

Lemma all_chars_app p a b : all_chars p (a ++ b) = all_chars p a && all_chars p b.
Proof.
  induction a as [|c a IH]; [reflexivity|].
  simpl. rewrite !all_chars_cons, IH. now rewrite andb_assoc.
Qed.

Lemma all_chars_impl (p q : ascii -> bool) s :
  (forall c, p c = true -> q c = true) ->
  all_chars p s = true -> all_chars q s = true.
Proof.
  intros Hpq. induction s as [|c s IH]; [reflexivity|].
  rewrite !all_chars_cons. intros H. apply andb_true_iff in H as [Hc Hs].
  now rewrite (Hpq _ Hc), (IH Hs).
Qed.

Lemma all_chars_has_char p c s :
  p c = false -> all_chars p s = true -> has_char c s = false.
Proof.
  intros Hc. induction s as [|x s IH]; [reflexivity|].
  rewrite all_chars_cons, has_char_cons. intros H.
  apply andb_true_iff in H as [Hx Hs]. rewrite (IH Hs), orb_false_r.
  destruct (Ascii.eqb_spec c x); [congruence|reflexivity].
Qed.

Lemma remove_chars_id drop s :
  all_chars (fun c => negb (drop c)) s = true -> remove_chars drop s = s.
Proof.
  induction s as [|c s IH]; [reflexivity|].
  rewrite all_chars_cons. intros H. apply andb_true_iff in H as [Hc Hs].
  simpl. apply negb_true_iff in Hc. now rewrite Hc, (IH Hs).
Qed.

Lemma span_until_all stop s :
  all_chars (fun c => negb (stop c)) s = true -> span_until stop s = (s, "").
Proof.
  induction s as [|c s IH]; [reflexivity|].
  rewrite all_chars_cons. intros H. apply andb_true_iff in H as [Hc Hs].
  simpl. apply negb_true_iff in Hc. now rewrite Hc, (IH Hs).
Qed.

Local Ltac each_byte c :=
  destruct c as [b0 b1 b2 b3 b4 b5 b6 b7];
  destruct b0, b1, b2, b3, b4, b5, b6, b7.

Lemma host_char_facts c :
  host_char c = true ->
  negb (unsafe_byte c) = true
  /\ negb (one_of "/?#" c) = true
  /\ ((nat_of_ascii c <? 128)%nat && negb (Ascii.eqb c "[")
      && negb (Ascii.eqb c "]")) = true.
Proof. each_byte c; intros H; try discriminate H; repeat split; reflexivity. Qed.

Lemma urlsplit_base hp :
  all_chars host_char hp = true ->
  urlsplit netloc_check ("http://" ++ hp) "" = Return (mkSplit "http" hp "" "" "").
Proof.
  intros H. unfold urlsplit.
  assert (E1 : remove_chars unsafe_byte (lstrip c0_or_space ("http://" ++ hp))
               = "http://" ++ hp).
  { simpl. rewrite remove_chars_id; [reflexivity|].
    revert H. apply all_chars_impl. intros c Hc. apply (host_char_facts c Hc). }
  rewrite E1. simpl.
  rewrite span_until_all.
  2:{ revert H. apply all_chars_impl. intros c Hc. apply (host_char_facts c Hc). }
  simpl. unfold netloc_accepted, plain_netloc.
  rewrite (all_chars_has_char host_char "[" hp eq_refl H).
  rewrite (all_chars_has_char host_char "]" hp eq_refl H).
  rewrite (all_chars_impl _ _ hp (fun c Hc => proj2 (proj2 (host_char_facts c Hc))) H).
  reflexivity.
Qed.

Lemma urlparse_base hp :
  all_chars host_char hp = true ->
  urlparse netloc_check ("http://" ++ hp) ""
  = Return (mkParse "http" hp "" "" "" "").
Proof. intros H. unfold urlparse. now rewrite (urlsplit_base hp H). Qed.

Lemma rsplit_once_Some sep s a b :
  rsplit_once sep s = Some (a, b) -> s = a ++ String sep b.
Proof.
  revert a. induction s as [|c s IH]; simpl; [discriminate|]. intros a.
  destruct (rsplit_once sep s) as [[a' b']|].
  - intros [= <- <-]. simpl. now rewrite (IH a' eq_refl).
  - destruct (Ascii.eqb_spec c sep); [|discriminate].
    intros [= <- <-]. now subst.
Qed.

Lemma path_char_facts c :
  path_char c = true ->
  negb (unsafe_byte c) = true
  /\ Ascii.eqb "#"%char c = false
  /\ Ascii.eqb "?"%char c = false
  /\ Ascii.eqb ";"%char c = false.
Proof. each_byte c; intros H; try discriminate H; repeat split; reflexivity. Qed.

Lemma path_char_absent p sep :
  path_char sep = false -> all_chars path_char p = true -> has_char sep p = false.
Proof. apply all_chars_has_char. Qed.

(** the path of a request: a slash, then text without a leading slash *)
Lemma urlsplit_path p :
  starts1 p "/" = false ->
  all_chars path_char p = true ->
  urlsplit netloc_check (String "/" p) "http"
  = Return (mkSplit "http" "" (String "/" p) "" "").
Proof.
  intros Hslash H. unfold urlsplit.
  assert (E1 : remove_chars unsafe_byte (lstrip c0_or_space (String "/" p))
               = String "/" p).
  { simpl. rewrite remove_chars_id; [reflexivity|].
    revert H. apply all_chars_impl. intros c Hc. apply (path_char_facts c Hc). }
  rewrite E1.
  assert (E2 : match split_once ":" (String "/" p) with
               | Some (String c0 pre, rest) =>
                   if is_alpha c0 && all_chars scheme_char (String c0 pre)
                   then (lower (String c0 pre), rest)
                   else ("http", String "/" p)
               | _ => ("http", String "/" p)
               end = ("http", String "/" p)).
  { simpl. destruct (split_once ":" p) as [[a b]|]; reflexivity. }
  rewrite E2.
  assert (E3 : starts2 (String "/" p) "/" = false).
  { destruct p; [reflexivity|exact Hslash]. }
  rewrite E3.
  assert (E4 : split_once "#" (String "/" p) = None).
  { apply split_once_absent. rewrite has_char_cons.
    now rewrite (path_char_absent p "#" eq_refl H). }
  assert (E5 : split_once "?" (String "/" p) = None).
  { apply split_once_absent. rewrite has_char_cons.
    now rewrite (path_char_absent p "?" eq_refl H). }
  rewrite E4, E5. reflexivity.
Qed.

Lemma urlparse_path p :
  starts1 p "/" = false ->
  all_chars path_char p = true ->
  urlparse netloc_check (String "/" p) "http"
  = Return (mkParse "http" "" (String "/" p) "" "" "").
Proof.
  intros Hslash H. unfold urlparse. rewrite (urlsplit_path p Hslash H).
  assert (Hsemi : has_char ";" (String "/" p) = false).
  { rewrite has_char_cons. now rewrite (path_char_absent p ";" eq_refl H). }
  assert (E : _splitparams (String "/" p) = None).
  { unfold _splitparams.
    destruct (rsplit_once "/" (String "/" p)) as [[dir last]|] eqn:R.
    - apply rsplit_once_Some in R. rewrite R, has_char_app, has_char_cons in Hsemi.
      apply orb_false_iff in Hsemi as [_ Hsemi].
      apply orb_false_iff in Hsemi as [_ Hsemi].
      now rewrite (split_once_absent _ _ Hsemi).
    - now apply split_once_absent. }
  cbn [s_scheme s_path s_netloc s_query s_fragment]. rewrite E. reflexivity.
Qed.

Lemma resolve_plain segs acc :
  forallb plain_segment segs = true ->
  fold_left
    (fun acc seg =>
       if String.eqb seg ".." then removelast acc
       else if String.eqb seg "." then acc
       else (acc ++ [seg])%list)
    segs acc
  = (acc ++ segs)%list.
Proof.
  revert acc. induction segs as [|s segs IH]; intros acc H; simpl.
  - now rewrite app_nil_r.
  - simpl in H. apply andb_true_iff in H as [Hs Hsegs].
    unfold plain_segment in Hs.
    apply andb_true_iff in Hs as [Hs Hdd]. apply andb_true_iff in Hs as [_ Hd].
    apply negb_true_iff in Hdd, Hd. rewrite Hdd, Hd, (IH _ Hsegs).
    now rewrite <- app_assoc.
Qed.

Lemma plain_segment_chars s :
  plain_segment s = true ->
  has_char "/" s = false /\ all_chars path_char s = true /\ starts1 s "/" = false.
Proof.
  unfold plain_segment. intros H.
  apply andb_true_iff in H as [H _]. apply andb_true_iff in H as [H _].
  apply andb_true_iff in H as [_ H].
  assert (Hslash : has_char "/" s = false).
  { revert H. apply all_chars_has_char. reflexivity. }
  repeat split; [exact Hslash| |].
  - revert H. apply all_chars_impl. intros c. each_byte c; intros Hc;
      try discriminate Hc; reflexivity.
  - destruct s as [|c s]; [reflexivity|]. rewrite has_char_cons in Hslash.
    apply orb_false_iff in Hslash as [Hc _]. simpl. now rewrite Ascii.eqb_sym.
Qed.

Lemma joined_segments segs :
  segs <> [] ->
  forallb plain_segment segs = true ->
  split "/" (String.concat "/" segs) = segs
  /\ all_chars path_char (String.concat "/" segs) = true
  /\ starts1 (String.concat "/" segs) "/" = false.
Proof.
  intros Hne H. split; [|split].
  - apply (split_concat "/" segs Hne). apply Forall_forall. intros s Hs.
    apply (plain_segment_chars s). rewrite forallb_forall in H. now apply H.
  - clear Hne. induction segs as [|s segs IH]; [reflexivity|].
    simpl in H. apply andb_true_iff in H as [Hs Hsegs].
    destruct (plain_segment_chars s Hs) as (_ & Hp & _).
    destruct segs as [|s' segs]; [exact Hp|].
    change (String.concat "/" (s :: s' :: segs))
      with (s ++ String "/" (String.concat "/" (s' :: segs))).
    rewrite all_chars_app, Hp, all_chars_cons, (IH Hsegs). reflexivity.
  - destruct segs as [|s segs]; [congruence|].
    simpl in H. apply andb_true_iff in H as [Hs Hsegs].
    destruct (plain_segment_chars s Hs) as (_ & _ & Hstart).
    unfold plain_segment in Hs. apply andb_true_iff in Hs as [Hs _].
    apply andb_true_iff in Hs as [Hs _]. apply andb_true_iff in Hs as [Hn _].
    destruct s as [|c s]; [discriminate|].
    destruct segs; exact Hstart.
Qed.

Lemma last_plain segs :
  segs <> [] ->
  forallb plain_segment segs = true ->
  in_strs (last ("" :: segs) "") ["."; ".."] = false.
Proof.
  intros Hne H.
  assert (Hin : In (last ("" :: segs) "") segs).
  { destruct segs as [|s segs]; [congruence|].
    change (last ("" :: s :: segs) "") with (last (s :: segs) "").
    clear. revert s. induction segs as [|s' segs IH]; intros s; [now left|].
    right. apply IH. }
  rewrite forallb_forall in H. specialize (H _ Hin).
  unfold plain_segment in H. apply andb_true_iff in H as [H Hdd].
  apply andb_true_iff in H as [_ Hd]. apply negb_true_iff in Hd, Hdd.
  unfold in_strs, existsb. now rewrite Hd, Hdd.
Qed.

(** For a plain location and plain segments, [urljoin] puts the path
    after the base. *)
Lemma urljoin_plain hp segs :
  all_chars host_char hp = true ->
  segs <> [] ->
  forallb plain_segment segs = true ->
  urljoin netloc_check ("http://" ++ hp) ("/" ++ String.concat "/" segs)
  = Return ("http://" ++ hp ++ "/" ++ String.concat "/" segs).
Proof.
  intros Hhp Hne Hsegs.
  destruct (joined_segments segs Hne Hsegs) as (Hsplit & Hpath & Hstart).
  pose proof (last_plain segs Hne Hsegs) as Hlast.
  pose proof (resolve_plain segs [""] Hsegs) as Hres.
  assert (Hjoin : String.concat "/" ("" :: segs) = String "/" (String.concat "/" segs)).
  { destruct segs; [congruence|reflexivity]. }
  unfold urljoin.
  change ("/" ++ String.concat "/" segs) with (String "/" (String.concat "/" segs)).
  rewrite (urlparse_base hp Hhp).
  cbn [scheme]. rewrite (urlparse_path _ Hstart Hpath).
  cbn [scheme netloc path params query fragment].
  remember (String.concat "/" segs) as J.
  assert (Hne_base : nonempty ("http://" ++ hp) = true) by reflexivity.
  rewrite Hne_base.
  cbn [negb nonempty]. 
  change ("http" =? "http") with true.
  change (in_strs "http" uses_relative) with true.
  change (in_strs "http" uses_netloc) with true.
  cbn [negb orb andb nonempty starts1]. 
  change (Ascii.eqb "/" "/") with true. cbv zeta. cbn iota.
  change (split "/" (String "/" J)) with ("" :: split "/" J).
  rewrite Hsplit, Hlast, app_nil_r.
  change (resolve ("" :: segs))
    with (fold_left
            (fun acc seg =>
               if String.eqb seg ".." then removelast acc
               else if String.eqb seg "." then acc
               else (acc ++ [seg])%list) segs [""]).
  rewrite Hres. change ([""] ++ segs)%list with ("" :: segs). rewrite Hjoin.
  assert (E : negb (starts2 (String "/" J) "/") = true).
  { destruct J; [reflexivity|]. simpl in *. now rewrite Hstart. }
  unfold urlunparse, urlunsplit.
  cbn [scheme netloc path params query fragment nonempty]. rewrite E.
  cbn [nonempty starts1 negb andb].
  change (in_strs "http" uses_netloc) with true.
  change (Ascii.eqb "/" "/") with true.
  cbn [andb negb]. rewrite orb_true_r. reflexivity.
Qed.

(** The form of a built URL, for a plain location, plain segments and
    keywords that do not name [token]: location, segments, then the
    keywords in the caller's order and the token last. *)
Lemma get_url_plain self segs kwargs :
  all_chars host_char
    (py_str (RequestBuilder.ip self) ++ ":" ++ py_str (RequestBuilder.post self))
  = true ->
  segs <> [] ->
  forallb plain_segment segs = true ->
  dict_get kwargs "token" = None ->
  RequestBuilder.get_url netloc_check self (map PStr segs) kwargs
  = Return ("http://" ++ py_str (RequestBuilder.ip self) ++ ":"
            ++ py_str (RequestBuilder.post self)
            ++ "/" ++ String.concat "/" segs
            ++ "?" ++ urlencode (kwargs ++ [("token", RequestBuilder.token self)])%list).
Proof.
  intros Hhp Hne Hsegs Hkw. unfold RequestBuilder.get_url, str_join.
  assert (E : all_strs (map PStr segs) = Some segs).
  { clear. induction segs as [|s segs IH]; [reflexivity|]. simpl. now rewrite IH. }
  rewrite E, (dict_set_absent _ _ _ Hkw).
  rewrite (urljoin_plain _ segs Hhp Hne Hsegs).
  now rewrite !append_assoc.
Qed.
End PlainForm.

(** C5, as the code has it.  With host "1.2.3.4", port 7878 and an empty
    token, the segments v2, server, status and the keyword players=True
    give "http://1.2.3.4:7878/v2/server/status?players=True&token=": the
    caller's parameter first and the token last, no slash before the
    question mark.  In general, for a plain location, plain segments and
    keywords that do not name [token], the URL is
    http://host:port/seg1/.../segN?, then the keywords in the caller's
    order, then the token. *)
Theorem get_url_server_status :
  forall netloc_check : string -> bool,
    RequestBuilder.get_url netloc_check
      (RequestBuilder.mk (PStr "1.2.3.4") (PInt 7878) (PStr ""))
      [PStr "v2"; PStr "server"; PStr "status"] [("players", PBool true)]
    = Return "http://1.2.3.4:7878/v2/server/status?players=True&token="
    /\ forall self segs kwargs,
         urllib.all_chars host_char
           (py_str (RequestBuilder.ip self) ++ ":" ++ py_str (RequestBuilder.post self))
         = true ->
         segs <> [] ->
         forallb plain_segment segs = true ->
         dict_get kwargs "token" = None ->
         RequestBuilder.get_url netloc_check self (map PStr segs) kwargs
         = Return ("http://" ++ py_str (RequestBuilder.ip self) ++ ":"
                   ++ py_str (RequestBuilder.post self)
                   ++ "/" ++ String.concat "/" segs ++ "?"
                   ++ urllib.urlencode
                        (kwargs ++ [("token", RequestBuilder.token self)])%list).
Proof.
  intros netloc_check. split.
  - reflexivity.
  - intros self segs kwargs. apply get_url_plain.
Qed.

Lemma get_url_server_status_witness :
  RequestBuilder.get_url Sample.strict
    (RequestBuilder.mk (PStr "1.2.3.4") (PInt 7878) (PStr ""))
    (map PStr ["v2"; "server"; "status"]) [("players", PBool true)]
  = Return "http://1.2.3.4:7878/v2/server/status?players=True&token=".
Proof.
  refine (proj2 (get_url_server_status Sample.strict)
            (RequestBuilder.mk (PStr "1.2.3.4") (PInt 7878) (PStr ""))
            ["v2"; "server"; "status"] [("players", PBool true)]
            eq_refl _ eq_refl eq_refl).
  discriminate.
Defined.

(** C5 as stated fails: the URL built is not the one with the token
    first. *)
Lemma get_url_token_is_not_first :
  RequestBuilder.get_url Sample.strict
    (RequestBuilder.mk (PStr "1.2.3.4") (PInt 7878) (PStr ""))
    [PStr "v2"; PStr "server"; PStr "status"] [("players", PBool true)]
  <> Return "http://1.2.3.4:7878/v2/server/status?token=&players=True".
Proof. vm_compute. discriminate. Qed.

(* ================================================================== *)
(** * Further properties of the validator *)

Section ValidatorMore.
Import TShock.
Variable server : transport.

(** X1.  The converse of C1: whatever [_make_request] returns is the dict
    the server sent in reply to this request, and its [status] is the
    string "200" or "400"; a status of another type (the number 200) is
    never accepted. *)
Theorem make_request_returns_only_200_400 :
  forall url w r w',
    _make_request server url w = (Return r, w') ->
    exists d,
      r = JDict d
      /\ server (sent w) url = Responded (Some (JDict d))
      /\ (dict_get d "status" = Some (PStr "200")
          \/ dict_get d "status" = Some (PStr "400"))
      /\ self w' = self w
      /\ sent w' = (sent w ++ [url])%list.
Proof.
  intros url w r w' H.
  destruct (make_request_Return server url w r w' H) as (d & -> & Hreply & Hst & ->).
  exists d. repeat split; assumption || reflexivity.
Qed.

(** X2.  Replies without the expected shape escape as built-in
    exceptions: decoded JSON that is not an object gives [TypeError], an
    object without [status] gives [KeyError("status")]; the request has
    been made in both cases. *)
Theorem make_request_malformed_reply :
  forall url w,
    (forall v, server (sent w) url = Responded (Some (JOther v)) ->
               _make_request server url w
               = (Raise TypeError, mkWorld (self w) (sent w ++ [url])))
    /\ (forall d, server (sent w) url = Responded (Some (JDict d)) ->
                  dict_get d "status" = None ->
                  _make_request server url w
                  = (Raise (KeyError "status"), mkWorld (self w) (sent w ++ [url]))).
Proof.
  intros url w. split.
  - intros v Hreply. now rewrite make_request_eq, Hreply.
  - intros d Hreply Hstatus. now rewrite make_request_eq, Hreply, Hstatus.
Qed.

End ValidatorMore.

Lemma make_request_returns_only_200_400_witness :
  exists d,
    JDict Sample.ok_users = JDict d
    /\ Sample.answers Sample.ok_users [] Sample.status_url = Responded (Some (JDict d))
    /\ (dict_get d "status" = Some (PStr "200")
        \/ dict_get d "status" = Some (PStr "400"))
    /\ TShock.self (TShock.mkWorld Sample.client [Sample.status_url]) = Sample.client
    /\ TShock.sent (TShock.mkWorld Sample.client [Sample.status_url])
       = [Sample.status_url].
Proof.
  exact (make_request_returns_only_200_400 (Sample.answers Sample.ok_users)
           Sample.status_url Sample.fresh (JDict Sample.ok_users)
           (TShock.mkWorld Sample.client [Sample.status_url]) eq_refl).
Defined.

Lemma make_request_malformed_reply_witness :
  TShock._make_request (Sample.always (Responded (Some (JOther (PObj "[]")))))
    Sample.status_url Sample.fresh
  = (Raise TypeError, TShock.mkWorld Sample.client [Sample.status_url])
  /\ TShock._make_request (Sample.answers [("response", PStr "ok")])
       Sample.status_url Sample.fresh
     = (Raise (KeyError "status"), TShock.mkWorld Sample.client [Sample.status_url]).
Proof.
  split.
  - exact (proj1 (make_request_malformed_reply
                    (Sample.always (Responded (Some (JOther (PObj "[]")))))
                    Sample.status_url Sample.fresh) (PObj "[]") eq_refl).
  - exact (proj2 (make_request_malformed_reply
                    (Sample.answers [("response", PStr "ok")])
                    Sample.status_url Sample.fresh)
             [("response", PStr "ok")] eq_refl eq_refl).
Defined.

(* ================================================================== *)
(** * Further properties of the URL builder *)

Section BuilderMore.
Variable netloc_check : string -> bool.
Import urllib.

Lemma urlsplit_raises url dflt e :
  urlsplit netloc_check url dflt = Raise e -> e = ValueError.
Proof.
  unfold urlsplit.
  repeat match goal with
         | |- context [let '(_, _) := ?x in _] => destruct x
         end.
  destruct (netloc_accepted _ _); [discriminate|]. now intros [= <-].
Qed.

Lemma urlparse_raises url dflt e :
  urlparse netloc_check url dflt = Raise e -> e = ValueError.
Proof.
  unfold urlparse. destruct (urlsplit netloc_check url dflt) as [r|e'] eqn:S.
  - destruct (in_strs _ _); [destruct (_splitparams _) as [[? ?]|]|]; discriminate.
  - intros [= <-]. exact (urlsplit_raises _ _ _ S).
Qed.

Lemma urljoin_raises base url e :
  urljoin netloc_check base url = Raise e -> e = ValueError.
Proof.
  unfold urljoin.
  destruct (negb (nonempty base)); [discriminate|].
  destruct (negb (nonempty url)); [discriminate|].
  destruct (urlparse netloc_check base "") as [b|eb] eqn:B.
  2:{ intros [= <-]. exact (urlparse_raises _ _ _ B). }
  destruct (urlparse netloc_check url (scheme b)) as [u|eu] eqn:U.
  2:{ intros [= <-]. exact (urlparse_raises _ _ _ U). }
  repeat match goal with
         | |- context [if ?c then _ else _] => destruct c
         end; discriminate.
Qed.

Lemma get_url_raises self args kwargs e :
  RequestBuilder.get_url netloc_check self args kwargs = Raise e ->
  e = TypeError \/ e = ValueError.
Proof.
  unfold RequestBuilder.get_url, str_join.
  destruct (all_strs args) as [segments|]; [|intros [= <-]; now left].
  destruct (urljoin netloc_check _ _) as [joined|e'] eqn:J; [discriminate|].
  intros [= <-]. right. exact (urljoin_raises _ _ _ J).
Qed.

(** X3.  [get_url] raises [TypeError] exactly when a positional argument
    is not a [str]; the only other exception it can raise is the
    [ValueError] of [urljoin] for a network location it rejects. *)
Theorem get_url_exceptions :
  forall self args kwargs,
    (RequestBuilder.get_url netloc_check self args kwargs = Raise TypeError
     <-> all_strs args = None)
    /\ (forall e,
          RequestBuilder.get_url netloc_check self args kwargs = Raise e ->
          e = TypeError \/ e = ValueError).
Proof.
  intros self args kwargs. unfold RequestBuilder.get_url, str_join.
  destruct (all_strs args) as [segments|].
  - destruct (urljoin netloc_check _ _) as [joined|e'] eqn:J.
    + split; [split; discriminate|]. discriminate.
    + apply urljoin_raises in J. subst e'. split.
      * split; discriminate.
      * intros e [= <-]. now right.
  - split; [split; reflexivity|]. intros e [= <-]. now left.
Qed.

Lemma nonempty_app_r a b : nonempty b = true -> nonempty (a ++ b) = true.
Proof. destruct a; [trivial|reflexivity]. Qed.

Lemma urlsplit_rooted c t :
  leading_char c = true ->
  exists p q f,
    urlsplit netloc_check (String "/" (String c t)) "http"
    = Return (mkSplit "http" "" (String "/" p) q f).
Proof.
  intros Hc. unfold leading_char in Hc. apply andb_true_iff in Hc as [Hslash Hsafe].
  apply negb_true_iff in Hslash, Hsafe.
  unfold urlsplit.
  assert (E1 : remove_chars unsafe_byte (lstrip c0_or_space (String "/" (String c t)))
               = String "/" (String c (remove_chars unsafe_byte t))).
  { simpl. now rewrite Hsafe. }
  rewrite E1. set (t' := remove_chars unsafe_byte t).
  assert (E2 : match split_once ":" (String "/" (String c t')) with
               | Some (String c0 pre, rest) =>
                   if is_alpha c0 && all_chars scheme_char (String c0 pre)
                   then (lower (String c0 pre), rest)
                   else ("http", String "/" (String c t'))
               | _ => ("http", String "/" (String c t'))
               end = ("http", String "/" (String c t'))).
  { change (split_once ":" (String "/" (String c t')))
      with (match split_once ":" (String c t') with
            | Some (a, b) => Some (String "/" a, b)
            | None => None
            end).
    destruct (split_once ":" (String c t')) as [[a b]|]; reflexivity. }
  rewrite E2.
  assert (E3 : starts2 (String "/" (String c t')) "/" = false).
  { simpl. now rewrite Hslash. }
  rewrite E3.
  change (split_once "#" (String "/" (String c t')))
    with (match split_once "#" (String c t') with
          | Some (a, b) => Some (String "/" a, b)
          | None => None
          end).
  destruct (split_once "#" (String c t')) as [[a f]|].
  - change (split_once "?" (String "/" a))
      with (match split_once "?" a with
            | Some (a, b) => Some (String "/" a, b)
            | None => None
            end).
    destruct (split_once "?" a) as [[p q]|]; eexists _, _, _; reflexivity.
  - change (split_once "?" (String "/" (String c t')))
      with (match split_once "?" (String c t') with
            | Some (a, b) => Some (String "/" a, b)
            | None => None
            end).
    destruct (split_once "?" (String c t')) as [[p q]|]; eexists _, _, _; reflexivity.
Qed.

Lemma urlparse_rooted c t :
  leading_char c = true ->
  exists p prm q f,
    urlparse netloc_check (String "/" (String c t)) "http"
    = Return (mkParse "http" "" p prm q f)
    /\ nonempty p = true.
Proof.
  intros Hc. destruct (urlsplit_rooted c t Hc) as (p & q & f & S).
  unfold urlparse. rewrite S. cbn [s_scheme s_netloc s_path s_query s_fragment].
  change (in_strs "http" uses_params) with true. cbv iota.
  unfold _splitparams.
  change (rsplit_once "/" (String "/" p))
    with (match rsplit_once "/" p with
          | Some (a, b) => Some (String "/" a, b)
          | None => Some ("", p)
          end).
  destruct (rsplit_once "/" p) as [[dir last]|].
  - destruct (split_once ";" last) as [[b a]|]; eexists _, _, _, _; split;
      reflexivity.
  - destruct (split_once ";" p) as [[b a]|]; eexists _, _, _, _; split;
      reflexivity.
Qed.

Lemma urlunparse_rooted hp p prm q f :
  nonempty hp = true ->
  nonempty p = true ->
  exists rest,
    urlunparse (mkParse "http" hp p prm q f) = "http://" ++ hp ++ "/" ++ rest.
Proof.
  intros Hhp Hp. unfold urlunparse, urlunsplit.
  cbn [scheme netloc path params query fragment]. rewrite Hhp. cbn [orb].
  set (url := if nonempty prm then p ++ ";" ++ prm else p).
  assert (Hurl : exists r, (if nonempty url && negb (starts1 url "/")
                            then "/" ++ url else url) = String "/" r).
  { assert (Hn : nonempty url = true).
    { unfold url. destruct (nonempty prm); [|exact Hp].
      destruct p; [discriminate|reflexivity]. }
    rewrite Hn. destruct url as [|x url']; [discriminate|].
    simpl. destruct (Ascii.eqb_spec x "/") as [->|]; simpl; eexists; reflexivity. }
  destruct Hurl as (r & ->).
  change (nonempty "http") with true. cbv iota.
  destruct (nonempty q), (nonempty f);
    rewrite ?append_assoc; simpl; rewrite ?append_assoc; simpl;
    eexists; reflexivity.
Qed.

Lemma prefix_app a b : String.prefix a (a ++ b) = true.
Proof.
  induction a as [|c a IH]; simpl; [now destruct b|].
  destruct (ascii_dec c c); [exact IH|congruence].
Qed.

Lemma urljoin_rooted hp c t :
  all_chars host_char hp = true ->
  nonempty hp = true ->
  leading_char c = true ->
  exists rest,
    urljoin netloc_check ("http://" ++ hp) (String "/" (String c t))
    = Return ("http://" ++ hp ++ "/" ++ rest).
Proof.
  intros Hhp Hne Hc.
  destruct (urlparse_rooted c t Hc) as (p & prm & q & f & U & Hp).
  unfold urljoin. rewrite (urlparse_base netloc_check hp Hhp). cbn [scheme].
  rewrite U. cbn [scheme netloc path params query fragment].
  assert (Hb : nonempty ("http://" ++ hp) = true) by reflexivity.
  rewrite Hb, Hp. cbn [negb nonempty andb].
  change ("http" =? "http") with true.
  change (in_strs "http" uses_relative) with true.
  change (in_strs "http" uses_netloc) with true.
  cbn [negb orb andb]. cbv zeta.
  match goal with
  | |- exists rest, Return (urlunparse (mkParse _ _ ?P _ _ _)) = _ =>
      assert (HP : nonempty P = true)
  end.
  { match goal with |- nonempty (if nonempty ?j then _ else _) = true =>
      destruct (nonempty j) eqn:E; [exact E|reflexivity] end. }
  match goal with
  | |- exists rest, Return (urlunparse (mkParse _ _ ?P ?a ?b ?d)) = _ =>
      destruct (urlunparse_rooted hp P a b d Hne HP) as (rest & ->)
  end.
  now exists rest.
Qed.

Lemma location_nonempty b : nonempty (location b) = true.
Proof. unfold location. apply nonempty_app_r. reflexivity. Qed.

Lemma concat_rooted c s l : exists t, String.concat "/" (String c s :: l) = String c t.
Proof. destruct l; eexists; reflexivity. Qed.

(** a URL built from a first segment that begins with a leading
    character goes to the location of the builder *)
Lemma get_url_rooted self c s args kwargs url :
  all_chars host_char (location self) = true ->
  leading_char c = true ->
  RequestBuilder.get_url netloc_check self (PStr (String c s) :: args) kwargs
  = Return url ->
  String.prefix ("http://" ++ location self ++ "/") url = true.
Proof.
  intros Hloc Hc H. apply get_url_inv in H as (segments & joined & Hargs & J & ->).
  simpl in Hargs. destruct (all_strs args) as [others|]; [|discriminate].
  injection Hargs as <-.
  destruct (concat_rooted c s others) as (t & Ht). rewrite Ht in J.
  destruct (urljoin_rooted _ c t Hloc (location_nonempty self) Hc) as (rest & R).
  change ("/" ++ String c t) with (String "/" (String c t)) in J.
  fold (location self) in J. rewrite R in J. injection J as <-.
  set (P := urlencode (dict_set kwargs "token" (RequestBuilder.token self))).
  assert (E : ("http://" ++ location self ++ "/" ++ rest) ++ "?" ++ P
              = ("http://" ++ location self ++ "/") ++ (rest ++ "?" ++ P)).
  { simpl. rewrite !append_assoc. reflexivity. }
  match goal with
  | |- String.prefix _ ?u = true =>
      change u with (("http://" ++ location self ++ "/" ++ rest) ++ "?" ++ P)
  end.
  rewrite E. apply prefix_app.
Qed.

(** X4.  For a plain location and positional arguments that are all
    [str], the first one beginning with a leading character, [get_url]
    raises nothing, and the URL it returns goes to [http://host:port/]
    and ends with the encoded keywords, whatever the later segments
    hold. *)
Theorem get_url_targets_location :
  forall self c s others kwargs,
    all_chars host_char (location self) = true ->
    leading_char c = true ->
    exists rest,
      RequestBuilder.get_url netloc_check self (map PStr (String c s :: others)) kwargs
      = Return ("http://" ++ location self ++ "/" ++ rest ++ "?"
                ++ urlencode (dict_set kwargs "token" (RequestBuilder.token self))).
Proof.
  intros self c s others kwargs Hloc Hc.
  unfold RequestBuilder.get_url, str_join.
  assert (E : all_strs (map PStr (String c s :: others)) = Some (String c s :: others)).
  { generalize (String c s :: others). intros l.
    induction l as [|x l IH]; [reflexivity|]. simpl. now rewrite IH. }
  rewrite E. destruct (concat_rooted c s others) as (t & ->).
  destruct (urljoin_rooted _ c t Hloc (location_nonempty self) Hc) as (rest & R).
  fold (location self). change ("/" ++ String c t) with (String "/" (String c t)).
  rewrite R. exists rest. now rewrite !append_assoc.
Qed.
End BuilderMore.

(* ================================================================== *)
(** * Further properties: the query of a built URL *)

Section QueryMore.
Variable netloc_check : string -> bool.
Import urllib Query.

Lemma read_query_urlencode prefix d :
  d <> [] ->
  read_query (prefix ++ "?" ++ urlencode d)
  = map (fun kv => (fst kv, py_str (snd kv))) d.
Proof.
  intros Hd. unfold read_query, query_string.
  change (prefix ++ "?" ++ urlencode d) with (prefix ++ String "?" (urlencode d)).
  rewrite (rsplit_once_app _ _ _ (urlencode_clean d)).
  unfold urlencode. rewrite split_concat.
  - rewrite map_map. apply map_ext, read_encode_item.
  - destruct d; [congruence|discriminate].
  - apply Forall_forall. intros x Hx. apply in_map_iff in Hx as (kv & <- & _).
    apply encode_item_clean.
Qed.



(** X5.  Reading back the query of a URL that [get_url] returned gives
    the keywords of the call, in their order, each value as its [str()],
    with [token] set to the token of the builder (also when the caller
    passed a [token] keyword of its own).  No character of a key or a
    value adds, drops or renames a parameter. *)
Theorem get_url_query_reads_back :
  forall self args kwargs url,
    RequestBuilder.get_url netloc_check self args kwargs = Return url ->
    read_query url
    = map (fun kv => (fst kv, py_str (snd kv)))
        (dict_set kwargs "token" (RequestBuilder.token self)).
Proof.
  intros self args kwargs url H.
  apply get_url_inv in H as (segments & joined & _ & _ & ->).
  apply read_query_urlencode, dict_set_nonempty.
Qed.

End QueryMore.

Lemma get_url_query_reads_back_witness :
  Query.read_query
    "http://1.2.3.4:7878/v3/server/rawcmd?cmd=%2Fsay+a%26b%3Dc%3F&token=s3cret"
  = [("cmd", "/say a&b=c?"); ("token", "s3cret")].
Proof.
  exact (get_url_query_reads_back Sample.strict
           (RequestBuilder.mk (PStr "1.2.3.4") (PInt 7878) (PStr "s3cret"))
           [PStr "v3"; PStr "server"; PStr "rawcmd"]
           [("cmd", PStr "/say a&b=c?"); ("token", PStr "mine")]
           "http://1.2.3.4:7878/v3/server/rawcmd?cmd=%2Fsay+a%26b%3Dc%3F&token=s3cret"
           eq_refl).
Defined.


(* ================================================================== *)
(** * The query of a URL built from clean segments *)

Section CleanUrls.
Variable netloc_check : string -> bool.
Import urllib.

Local Ltac each_byte c :=
  destruct c as [b0 b1 b2 b3 b4 b5 b6 b7];
  destruct b0, b1, b2, b3, b4, b5, b6, b7.

(** *** Characters *)

Lemma segment_ok_mark_free s : segment_ok s = all_chars mark_free s.
Proof.
  unfold segment_ok. induction s as [|c s IH]; [reflexivity|].
  rewrite all_chars_cons, <- IH, !has_char_cons. unfold mark_free.
  rewrite (Ascii.eqb_sym "?" c), (Ascii.eqb_sym "#" c).
  destruct (Ascii.eqb c "?"), (Ascii.eqb c "#"), (has_char "?" s), (has_char "#" s);
    reflexivity.
Qed.

Lemma all_chars_remove p drop s :
  all_chars p s = true -> all_chars p (remove_chars drop s) = true.
Proof.
  induction s as [|c s IH]; [reflexivity|].
  rewrite all_chars_cons. intros H. apply andb_true_iff in H as [Hc Hs].
  simpl. destruct (drop c); [auto|]. now rewrite all_chars_cons, Hc, IH.
Qed.

Lemma remove_chars_app drop a b :
  remove_chars drop (a ++ b) = remove_chars drop a ++ remove_chars drop b.
Proof.
  induction a as [|c a IH]; [reflexivity|]. simpl.
  destruct (drop c); [exact IH|]. simpl. now rewrite IH.
Qed.

Lemma span_until_app_stop stop a c b :
  all_chars (fun x => negb (stop x)) a = true ->
  stop c = true ->
  span_until stop (a ++ String c b) = (a, String c b).
Proof.
  intros Ha Hc. induction a as [|x a IH]; simpl.
  - now rewrite Hc.
  - rewrite all_chars_cons in Ha. apply andb_true_iff in Ha as [Hx Ha].
    apply negb_true_iff in Hx. now rewrite Hx, (IH Ha).
Qed.

Lemma split_once_Some sep s a b :
  split_once sep s = Some (a, b) -> s = a ++ String sep b.
Proof.
  revert a. induction s as [|c s IH]; simpl; [discriminate|]. intros a.
  destruct (Ascii.eqb_spec c sep) as [->|].
  - now intros [= <- <-].
  - destruct (split_once sep s) as [[a' b']|]; [|discriminate].
    intros [= <- <-]. simpl. now rewrite (IH a' eq_refl).
Qed.

Lemma all_chars_split p sep s :
  all_chars p s = true ->
  Forall (fun y => all_chars p y = true) (split sep s).
Proof.
  induction s as [|c s IH]; simpl; intros H.
  - constructor; [reflexivity|constructor].
  - rewrite all_chars_cons in H. apply andb_true_iff in H as [Hc Hs].
    specialize (IH Hs). destruct (Ascii.eqb c sep).
    + constructor; [reflexivity|exact IH].
    + destruct (split sep s) as [|h t].
      * constructor; [|constructor]. now rewrite all_chars_cons, Hc.
      * inversion IH as [|? ? Hh Ht]; subst.
        constructor; [|exact Ht]. now rewrite all_chars_cons, Hc.
Qed.

Lemma all_chars_concat p sep l :
  all_chars p sep = true ->
  Forall (fun y => all_chars p y = true) l ->
  all_chars p (String.concat sep l) = true.
Proof.
  intros Hsep. induction l as [|x l IH]; intros H; [reflexivity|].
  inversion H as [|? ? Hx Hl]; subst.
  destruct l as [|y l]; [exact Hx|].
  change (String.concat sep (x :: y :: l))
    with (x ++ sep ++ String.concat sep (y :: l)).
  now rewrite !all_chars_app, Hx, Hsep, (IH Hl).
Qed.

Lemma Forall_removelast (A : Type) (P : A -> Prop) l :
  Forall P l -> Forall P (removelast l).
Proof.
  induction l as [|x l IH]; intros H; [constructor|].
  inversion H as [|? ? Hx Hl]; subst. simpl.
  destruct l; [constructor|]. constructor; [exact Hx|now apply IH].
Qed.

Lemma resolve_Forall (P : string -> Prop) segs :
  Forall P segs -> Forall P (resolve segs).
Proof.
  unfold resolve.
  assert (G : forall acc, Forall P acc -> Forall P segs ->
              Forall P (fold_left
                          (fun acc seg =>
                             if String.eqb seg ".." then removelast acc
                             else if String.eqb seg "." then acc
                             else (acc ++ [seg])%list) segs acc)).
  { induction segs as [|x segs IH]; intros acc Hacc H; simpl; [exact Hacc|].
    inversion H as [|? ? Hx Hsegs]; subst. apply IH; [|exact Hsegs].
    destruct (String.eqb x ".."); [now apply Forall_removelast|].
    destruct (String.eqb x "."); [exact Hacc|].
    apply Forall_app. split; [exact Hacc|]. constructor; [exact Hx|constructor]. }
  apply G. constructor.
Qed.

Lemma squeeze_Forall (P : string -> Prop) l :
  Forall P l -> Forall P (squeeze l).
Proof.
  intros Fl. unfold squeeze. destruct l as [|a [|b l]]; try exact Fl.
  inversion Fl as [|? ? Ha Hl]; subst.
  constructor; [exact Ha|]. apply Forall_app. split.
  - apply Forall_forall. intros y Hy. apply filter_In in Hy as [Hy _].
    revert y Hy. apply Forall_forall. now apply Forall_removelast.
  - constructor; [|constructor].
    assert (Hin : In (last (b :: l) "") (b :: l)).
    { clear. revert b. induction l as [|b' l IH]; intros b; [now left|].
      right. apply IH. }
    revert Hin. generalize (last (b :: l) ""). now apply Forall_forall.
Qed.

(** what [urlencode] writes holds no hash, tab or line break *)
Lemma quote_byte_plain c :
  all_chars (fun x => negb (unsafe_byte x) && negb (Ascii.eqb x "#")) (quote_byte c)
  = true.
Proof. each_byte c; reflexivity. Qed.

Lemma quote_plus_plain s :
  all_chars (fun x => negb (unsafe_byte x) && negb (Ascii.eqb x "#")) (quote_plus s)
  = true.
Proof.
  induction s as [|c s IH]; [reflexivity|]. simpl.
  now rewrite all_chars_app, quote_byte_plain, IH.
Qed.

Lemma urlencode_plain d :
  all_chars (fun x => negb (unsafe_byte x) && negb (Ascii.eqb x "#")) (urlencode d)
  = true.
Proof.
  unfold urlencode. apply all_chars_concat; [reflexivity|].
  apply Forall_forall. intros x Hx. apply in_map_iff in Hx as (kv & <- & _).
  unfold encode_item. now rewrite !all_chars_app, !quote_plus_plain.
Qed.
(** *** The path of the request *)

Lemma mark_free_absent s :
  all_chars mark_free s = true ->
  has_char "?" s = false /\ has_char "#" s = false.
Proof.
  intros H. split; revert H; apply all_chars_has_char; reflexivity.
Qed.

Lemma urlsplit_clean c t :
  leading_char c = true ->
  all_chars mark_free (String c t) = true ->
  urlsplit netloc_check (String "/" (String c t)) "http"
  = Return (mkSplit "http" "" (String "/" (String c (remove_chars unsafe_byte t))) "" "").
Proof.
  intros Hc Hfree. unfold leading_char in Hc.
  apply andb_true_iff in Hc as [Hslash Hsafe]. apply negb_true_iff in Hslash, Hsafe.
  unfold urlsplit.
  assert (E1 : remove_chars unsafe_byte (lstrip c0_or_space (String "/" (String c t)))
               = String "/" (String c (remove_chars unsafe_byte t))).
  { simpl. now rewrite Hsafe. }
  rewrite E1. set (t' := remove_chars unsafe_byte t).
  assert (Hfree' : all_chars mark_free (String "/" (String c t')) = true).
  { rewrite all_chars_cons in Hfree. apply andb_true_iff in Hfree as [H1 H2].
    rewrite !all_chars_cons, H1. unfold t'. now rewrite all_chars_remove. }
  destruct (mark_free_absent _ Hfree') as (Hq & Hh).
  assert (E2 : match split_once ":" (String "/" (String c t')) with
               | Some (String c0 pre, rest) =>
                   if is_alpha c0 && all_chars scheme_char (String c0 pre)
                   then (lower (String c0 pre), rest)
                   else ("http", String "/" (String c t'))
               | _ => ("http", String "/" (String c t'))
               end = ("http", String "/" (String c t'))).
  { change (split_once ":" (String "/" (String c t')))
      with (match split_once ":" (String c t') with
            | Some (a, b) => Some (String "/" a, b)
            | None => None
            end).
    destruct (split_once ":" (String c t')) as [[a b]|]; reflexivity. }
  rewrite E2.
  assert (E3 : starts2 (String "/" (String c t')) "/" = false).
  { simpl. now rewrite Hslash. }
  rewrite E3, (split_once_absent _ _ Hh), (split_once_absent _ _ Hq). reflexivity.
Qed.

Lemma splitparams_Some u a b :
  _splitparams u = Some (a, b) -> u = a ++ String ";" b.
Proof.
  unfold _splitparams. destruct (rsplit_once "/" u) as [[dir last]|] eqn:R.
  - destruct (split_once ";" last) as [[x y]|] eqn:S; [|discriminate].
    intros [= <- <-]. apply rsplit_once_Some in R. apply split_once_Some in S.
    subst. rewrite !append_assoc. reflexivity.
  - apply split_once_Some.
Qed.

Lemma urlparse_clean c t :
  leading_char c = true ->
  all_chars mark_free (String c t) = true ->
  exists p prm,
    urlparse netloc_check (String "/" (String c t)) "http"
    = Return (mkParse "http" "" p prm "" "")
    /\ nonempty p = true
    /\ all_chars mark_free p = true
    /\ all_chars mark_free prm = true.
Proof.
  intros Hc Hfree.
  destruct (urlparse_rooted netloc_check c t Hc) as (p & prm & q & f & U & Hp).
  unfold urlparse in U |- *. rewrite (urlsplit_clean c t Hc Hfree) in U |- *.
  cbn [s_scheme s_netloc s_path s_query s_fragment] in U |- *.
  set (u := String "/" (String c (remove_chars unsafe_byte t))) in *.
  assert (Hu : all_chars mark_free u = true).
  { unfold u. rewrite all_chars_cons in Hfree. apply andb_true_iff in Hfree as [H1 H2].
    now rewrite !all_chars_cons, H1, all_chars_remove. }
  change (in_strs "http" uses_params) with true in U |- *. cbv iota in U |- *.
  destruct (_splitparams u) as [[a b]|] eqn:S.
  - injection U as <- <- <- <-. exists a, b. split; [reflexivity|]. split; [exact Hp|].
    apply splitparams_Some in S. rewrite S, all_chars_app, all_chars_cons in Hu.
    apply andb_true_iff in Hu as [Ha Hb]. apply andb_true_iff in Hb as [_ Hb].
    now split.
  - injection U as <- <- <- <-. exists u, "". repeat split; assumption || reflexivity.
Qed.

Lemma urlunparse_clean hp p prm :
  nonempty hp = true ->
  nonempty p = true ->
  all_chars mark_free p = true ->
  all_chars mark_free prm = true ->
  exists r,
    urlunparse (mkParse "http" hp p prm "" "") = "http://" ++ hp ++ String "/" r
    /\ all_chars mark_free r = true.
Proof.
  intros Hhp Hp Fp Fprm. unfold urlunparse, urlunsplit.
  cbn [scheme netloc path params query fragment nonempty]. rewrite Hhp. cbn [orb].
  set (url := if nonempty prm then p ++ ";" ++ prm else p).
  assert (Hn : nonempty url = true).
  { unfold url. destruct (nonempty prm); [|exact Hp].
    destruct p; [discriminate|reflexivity]. }
  assert (Fu : all_chars mark_free url = true).
  { unfold url. destruct (nonempty prm); [|exact Fp].
    now rewrite !all_chars_app, Fp, Fprm. }
  rewrite Hn. destruct url as [|x url']; [discriminate|].
  cbn [starts1 andb]. destruct (Ascii.eqb_spec x "/") as [->|]; cbn [negb].
  - exists url'. split; [reflexivity|].
    rewrite all_chars_cons in Fu. now apply andb_true_iff in Fu as [_ Fu].
  - exists (String x url'). split; [reflexivity|exact Fu].
Qed.

Lemma urljoin_clean hp c t :
  all_chars host_char hp = true ->
  nonempty hp = true ->
  leading_char c = true ->
  all_chars mark_free (String c t) = true ->
  exists r,
    urljoin netloc_check ("http://" ++ hp) (String "/" (String c t))
    = Return ("http://" ++ hp ++ String "/" r)
    /\ all_chars mark_free r = true.
Proof.
  intros Hhp Hne Hc Hfree.
  destruct (urlparse_clean c t Hc Hfree) as (p & prm & U & Hp & Fp & Fprm).
  unfold urljoin. rewrite (urlparse_base netloc_check hp Hhp). cbn [scheme].
  rewrite U. cbn [scheme netloc path params query fragment].
  assert (Hb : nonempty ("http://" ++ hp) = true) by reflexivity.
  rewrite Hb, Hp. cbn [negb nonempty andb].
  change ("http" =? "http") with true.
  change (in_strs "http" uses_relative) with true.
  change (in_strs "http" uses_netloc) with true.
  cbn [negb orb andb]. cbv zeta.
  match goal with
  | |- exists r, Return (urlunparse (mkParse _ _ ?P _ _ _)) = _ /\ _ =>
      assert (HP : nonempty P = true /\ all_chars mark_free P = true)
  end.
  { match goal with
    | |- nonempty (if nonempty ?j then _ else _) = true /\ _ =>
        assert (Fj : all_chars mark_free j = true);
        [|destruct (nonempty j) eqn:E; split; assumption || reflexivity]
    end.
    apply all_chars_concat; [reflexivity|].
    apply Forall_app. split.
    - apply resolve_Forall.
      destruct (starts1 p "/").
      + now apply all_chars_split.
      + apply squeeze_Forall. apply Forall_app. split; [|now apply all_chars_split].
        match goal with
        | |- Forall _ (if ?b then removelast ?x else ?x) =>
            assert (Fx : Forall (fun y => all_chars mark_free y = true) x)
              by (now apply all_chars_split);
            destruct b; [now apply Forall_removelast|exact Fx]
        end.
    - match goal with |- Forall _ (if ?b then _ else _) => destruct b end;
        repeat constructor.
  }
  destruct HP as (HPn & HPf).
  match goal with
  | |- exists r, Return (urlunparse (mkParse _ _ ?P ?a _ _)) = _ /\ _ =>
      destruct (urlunparse_clean hp P a Hne HPn HPf Fprm) as (r & -> & Fr)
  end.
  now exists r.
Qed.
(** *** Reading the built URL *)

(** [urlsplit] of a location, a path free of marks, a question mark and
    an encoded query gives back that query *)
Lemma urlsplit_built hp r params :
  all_chars host_char hp = true ->
  all_chars mark_free r = true ->
  all_chars (fun x => negb (unsafe_byte x) && negb (Ascii.eqb x "#")) params = true ->
  urlsplit netloc_check (("http://" ++ hp ++ String "/" r) ++ "?" ++ params) ""
  = Return (mkSplit "http" hp (String "/" (remove_chars unsafe_byte r)) params "").
Proof.
  intros Hhp Fr Fparams. unfold urlsplit.
  set (r' := remove_chars unsafe_byte r).
  assert (Fr' : all_chars mark_free (String "/" r') = true).
  { rewrite all_chars_cons. unfold r'. now rewrite all_chars_remove. }
  destruct (mark_free_absent _ Fr') as (Hq & Hh).
  assert (Hsafe : remove_chars unsafe_byte params = params).
  { apply remove_chars_id. revert Fparams. apply all_chars_impl.
    intros x Hx. now apply andb_true_iff in Hx as [Hx _]. }
  assert (Hhash : has_char "#" params = false).
  { revert Fparams. apply all_chars_has_char. reflexivity. }
  assert (E1 : remove_chars unsafe_byte
                 (lstrip c0_or_space
                    (("http://" ++ hp ++ String "/" r) ++ "?" ++ params))
               = "http://" ++ hp ++ String "/" (r' ++ String "?" params)).
  { simpl. rewrite append_assoc, remove_chars_app.
    rewrite (remove_chars_id unsafe_byte hp).
    2:{ revert Hhp. apply all_chars_impl. intros x Hx. apply (host_char_facts x Hx). }
    simpl. rewrite remove_chars_app. simpl. now rewrite Hsafe. }
  rewrite E1. simpl.
  rewrite span_until_app_stop; [| |reflexivity].
  2:{ revert Hhp. apply all_chars_impl. intros x Hx. apply (host_char_facts x Hx). }
  assert (E4 : split_once "#" (String "/" (r' ++ String "?" params)) = None).
  { apply split_once_absent.
    change (String "/" (r' ++ String "?" params))
      with (String "/" r' ++ String "?" params).
    now rewrite has_char_app, Hh, has_char_cons, Hhash. }
  rewrite E4.
  change (String "/" (r' ++ String "?" params))
    with (String "/" r' ++ String "?" params).
  rewrite (split_once_app _ _ _ Hq).
  unfold netloc_accepted, plain_netloc.
  rewrite (all_chars_has_char host_char "[" hp eq_refl Hhp).
  rewrite (all_chars_has_char host_char "]" hp eq_refl Hhp).
  rewrite (all_chars_impl _ _ hp (fun x Hx => proj2 (proj2 (host_char_facts x Hx))) Hhp).
  reflexivity.
Qed.

Lemma args_segments args segments :
  all_strs args = Some segments ->
  forallb arg_ok args = true ->
  Forall (fun y => all_chars mark_free y = true) segments.
Proof.
  revert segments. induction args as [|v args IH]; simpl; intros segments.
  - intros [= <-] _. constructor.
  - destruct v; try discriminate.
    destruct (all_strs args) as [l|]; [|discriminate].
    intros [= <-] H. apply andb_true_iff in H as [Hs Hl].
    constructor; [now rewrite <- segment_ok_mark_free|now apply IH].
Qed.

(** The query component of a URL that [get_url] built from a plain
    location and clean segments is what [urlencode] wrote. *)
Lemma get_url_query_component self c s args kwargs url :
  RequestBuilder.get_url netloc_check self (PStr (String c s) :: args) kwargs
  = Return url ->
  all_chars host_char (location self) = true ->
  leading_char c = true ->
  forallb arg_ok (PStr (String c s) :: args) = true ->
  Receiver.url_query netloc_check url
  = Some (urlencode (dict_set kwargs "token" (RequestBuilder.token self))).
Proof.
  intros H Hloc Hc Hok.
  apply get_url_inv in H as (segments & joined & Hargs & J & ->).
  pose proof (args_segments _ _ Hargs Hok) as Fsegs.
  simpl in Hargs. destruct (all_strs args) as [others|]; [|discriminate].
  injection Hargs as <-.
  assert (Fpath : all_chars mark_free (String.concat "/" (String c s :: others)) = true)
    by (now apply all_chars_concat).
  destruct (concat_rooted c s others) as (t & Ht). rewrite Ht in J, Fpath.
  destruct (urljoin_clean _ c t Hloc (location_nonempty self) Hc Fpath)
    as (r & R & Fr).
  change ("/" ++ String c t) with (String "/" (String c t)) in J.
  fold (location self) in J. rewrite R in J. injection J as <-.
  unfold Receiver.url_query.
  match goal with
  | |- match urlsplit _ ?u _ with _ => _ end = _ =>
      change u with (("http://" ++ location self ++ String "/" r) ++ "?"
                     ++ urlencode (dict_set kwargs "token" (RequestBuilder.token self)))
  end.
  now rewrite (urlsplit_built _ r _ Hloc Fr (urlencode_plain _)).
Qed.

(** The items of that query are the keywords, in order, each value as its
    [str()]. *)
Lemma get_url_items self c s args kwargs url :
  RequestBuilder.get_url netloc_check self (PStr (String c s) :: args) kwargs
  = Return url ->
  all_chars host_char (location self) = true ->
  leading_char c = true ->
  forallb arg_ok (PStr (String c s) :: args) = true ->
  Receiver.url_items netloc_check url
  = map (fun kv => (fst kv, py_str (snd kv)))
      (dict_set kwargs "token" (RequestBuilder.token self)).
Proof.
  intros H Hloc Hc Hok. unfold Receiver.url_items.
  rewrite (get_url_query_component _ _ _ _ _ _ H Hloc Hc Hok).
  unfold urlencode. rewrite split_concat.
  - rewrite map_map. apply map_ext, read_encode_item.
  - pose proof (dict_set_nonempty kwargs "token" (RequestBuilder.token self)) as Hd.
    destruct (dict_set kwargs "token" (RequestBuilder.token self));
      [congruence|discriminate].
  - apply Forall_forall. intros x Hx. apply in_map_iff in Hx as (kv & <- & _).
    apply encode_item_clean.
Qed.

End CleanUrls.

(** For a URL built from a plain location and clean segments, the text
    after the last question mark is the query component of the URL: the
    two readers find the same items. *)
Lemma readers_agree (netloc_check : string -> bool) self c s args kwargs url :
  RequestBuilder.get_url netloc_check self (PStr (String c s) :: args) kwargs
  = Return url ->
  urllib.all_chars host_char (location self) = true ->
  leading_char c = true ->
  forallb arg_ok (PStr (String c s) :: args) = true ->
  Receiver.url_items netloc_check url = Query.read_query url.
Proof.
  intros H Hloc Hc Hok.
  rewrite (get_url_items netloc_check _ _ _ _ _ _ H Hloc Hc Hok).
  apply get_url_inv in H as (segments & joined & _ & _ & ->).
  symmetry. apply read_query_urlencode, dict_set_nonempty.
Qed.



(* ================================================================== *)
(** * The token in every URL *)

Section TokenInvariant.
Import TShock.
Variable server : transport.
Variable netloc_check : string -> bool.

Local Ltac unfold_M :=
  unfold returning, discard, keywords, urls_token, store_urls_token,
    bind, ret, raise, lift, try_except, TShock.get_url in *.

Local Ltac run_call :=
  repeat match goal with
    | |- context [RequestBuilder.get_url ?c ?b ?a ?k] =>
        let G := fresh "G" in
        destruct (RequestBuilder.get_url c b a k) eqn:G
    | |- context [_make_request ?s ?u ?w] =>
        let Hw := fresh "Hw" in
        pose proof (make_request_world s u w) as Hw;
        destruct (_make_request s u w) as [[?|?] ?]; simpl in Hw; subst
    | |- context [getitem ?r ?k] => destruct (getitem r k)
    | |- context [is_ApiException ?e] => destruct (is_ApiException e)
    | |- context [existsb ?f ?l] => destruct (existsb f l)
    end.







End TokenInvariant.



(* ================================================================== *)
(** * Further properties of the client *)

Section ClientMore.
Import TShock.
Variable server : transport.
Variable netloc_check : string -> bool.

Local Ltac unfold_M :=
  unfold returning, discard, keywords, urls_token, store_urls_token,
    bind, ret, raise, lift, try_except, TShock.get_url in *.

Local Ltac unfold_methods :=
  unfold get_token, get_status, get_token_status, get_server_status_v2,
    get_active_user_list, get_user_info, get_ban_information, get_ban_list,
    get_player_list, get_player_info, get_world_info, get_group_list,
    get_group_info, get_server_motd, get_server_rules, do_destroy_token,
    do_destroy_all_tokens, do_server_broadcast, do_server_reload,
    do_server_off, do_server_restart, do_server_rawcmd_v2,
    do_server_rawcmd_v3, do_create_ban, do_delete_ban, do_world_meteor,
    do_world_save, do_world_butcher, do_kick_player, do_ban_player,
    do_kill_player, do_mute_player, do_unmute_player, do_group_delete,
    do_group_create, set_update_user, set_world_bloodmoon,
    set_world_autosaving, set_group_update in *.

Local Ltac run_call :=
  repeat match goal with
    | |- context [RequestBuilder.get_url ?c ?b ?a ?k] =>
        let G := fresh "G" in
        destruct (RequestBuilder.get_url c b a k) eqn:G
    | |- context [_make_request ?s ?u ?w] =>
        let Hw := fresh "Hw" in
        pose proof (make_request_world s u w) as Hw;
        destruct (_make_request s u w) as [[?|?] ?]; simpl in Hw; subst
    | |- context [getitem ?r ?k] => destruct (getitem r k)
    | |- context [is_ApiException ?e] => destruct (is_ApiException e)
    | |- context [existsb ?f ?l] => destruct (existsb f l)
    end.

Local Ltac requests_made :=
  let Hloc := fresh "Hloc" in
  simpl;
  first
    [ exists []; split; [now rewrite app_nil_r|];
      split; [simpl; lia | intros _; constructor]
    | eexists [_]; split; [reflexivity|];
      split; [simpl; lia|];
      intros Hloc; constructor; [|constructor];
      eapply get_url_rooted; [exact Hloc | | eassumption]; reflexivity ].

(** One call: everything in the client but the token of the builder is
    kept, and at most one request is made, to the location of the builder
    when that location is plain. *)
Lemma invoke_frame c w :
  set_urls_token (self (snd (invoke server netloc_check c w))) PNone
  = set_urls_token (self w) PNone
  /\ exists new,
       sent (snd (invoke server netloc_check c w)) = (sent w ++ new)%list
       /\ (List.length new <= 1)%nat
       /\ (urllib.all_chars host_char (location (urls (self w))) = true ->
           Forall (fun url =>
                     String.prefix ("http://" ++ location (urls (self w)) ++ "/") url
                     = true) new).
Proof.
  destruct c; cbn [invoke]; unfold_methods; unfold_M; cbv zeta; run_call;
    (split; [reflexivity | requests_made]).
Qed.

Lemma same_location (a b : TShock.t) :
  set_urls_token a PNone = set_urls_token b PNone ->
  location (urls a) = location (urls b).
Proof.
  unfold set_urls_token, RequestBuilder.set_token, location.
  intros H. injection H as Hip Hpost _ _ _. now rewrite Hip, Hpost.
Qed.

(** A sequence of calls. *)
Lemma run_frame cs :
  forall w,
    set_urls_token (self (snd (run server netloc_check cs w))) PNone
    = set_urls_token (self w) PNone
    /\ exists new,
         sent (snd (run server netloc_check cs w)) = (sent w ++ new)%list
         /\ (List.length new <= List.length cs)%nat
         /\ (urllib.all_chars host_char (location (urls (self w))) = true ->
             Forall (fun url =>
                       String.prefix ("http://" ++ location (urls (self w)) ++ "/") url
                       = true) new).
Proof.
  induction cs as [|c cs IH]; intros w; simpl.
  - split; [reflexivity|].
    exists []. split; [now rewrite app_nil_r|]. split; [simpl; lia|]. constructor.
  - destruct (invoke_frame c w) as (Hself & new1 & Hsent1 & Hlen1 & Hall1).
    destruct (invoke server netloc_check c w) as [o w1]; simpl in *.
    destruct (IH w1) as (Hself2 & new2 & Hsent2 & Hlen2 & Hall2).
    destruct (run server netloc_check cs w1) as [tr w2]; simpl in *.
    pose proof (same_location _ _ Hself) as Hloc.
    split; [congruence|].
    exists (new1 ++ new2)%list. split; [now rewrite Hsent2, Hsent1, app_assoc|].
    split; [rewrite length_app; lia|].
    intros Hplain. apply Forall_app. split; [auto|].
    rewrite <- Hloc. apply Hall2. now rewrite Hloc.
Qed.

(** X7.  Every call makes at most one request: after a sequence of
    calls the list of requests is the old list with at most one URL per
    call added at the end. *)
Theorem run_makes_at_most_one_request_per_call :
  forall cs w,
    exists new,
      sent (snd (run server netloc_check cs w)) = (sent w ++ new)%list
      /\ (List.length new <= List.length cs)%nat.
Proof.
  intros cs w. destruct (run_frame cs w) as (_ & new & Hsent & Hlen & _).
  now exists new.
Qed.

(** X8.  No sequence of calls changes the address of the client: [ip]
    and [port] of the client, [ip] and [post] of its builder stay as
    constructed.  The client's own [token] attribute is never written
    either; the token in use is the builder's. *)
Theorem run_keeps_client_fields :
  forall cs w,
    let s := self w in
    let s' := self (snd (run server netloc_check cs w)) in
    ip s' = ip s /\ port s' = port s /\ token s' = token s
    /\ RequestBuilder.ip (urls s') = RequestBuilder.ip (urls s)
    /\ RequestBuilder.post (urls s') = RequestBuilder.post (urls s).
Proof.
  intros cs w. destruct (run_frame cs w) as (H & _). cbv zeta.
  unfold set_urls_token, RequestBuilder.set_token in H.
  injection H as Hbip Hbpost Hip Hport Htoken. repeat split; assumption.
Qed.

(** X10.  On a client made for a plain host and port, every request of
    every sequence of calls goes to [http://host:port/], whatever the
    callers pass as arguments and whatever token the server returned. *)
Theorem requests_go_to_location :
  forall ip port cs,
    urllib.all_chars host_char (py_str ip ++ ":" ++ py_str port) = true ->
    Forall (fun url =>
              String.prefix ("http://" ++ py_str ip ++ ":" ++ py_str port ++ "/") url
              = true)
      (sent (snd (run server netloc_check cs (mkWorld (__init__ ip port) [])))).
Proof.
  intros ip port cs Hplain.
  destruct (run_frame cs (mkWorld (__init__ ip port) []))
    as (_ & new & Hsent & _ & Hall).
  rewrite Hsent. simpl. specialize (Hall Hplain). revert Hall.
  apply Forall_impl. intros url H. unfold location in H. simpl in H.
  now rewrite append_assoc in H.
Qed.
End ClientMore.

(* ================================================================== *)
(** * Further properties of the endpoint methods *)

Section EndpointMore.
Import TShock.
Variable server : transport.
Variable netloc_check : string -> bool.

Local Ltac unfold_M :=
  unfold returning, discard, keywords, urls_token, store_urls_token,
    bind, ret, raise, lift, try_except, TShock.get_url in *.

Local Ltac unfold_methods :=
  unfold get_token, get_status, get_token_status, get_server_status_v2,
    get_active_user_list, get_user_info, get_ban_information, get_ban_list,
    get_player_list, get_player_info, get_world_info, get_group_list,
    get_group_info, get_server_motd, get_server_rules, do_destroy_token,
    do_destroy_all_tokens, do_server_broadcast, do_server_reload,
    do_server_off, do_server_restart, do_server_rawcmd_v2,
    do_server_rawcmd_v3, do_create_ban, do_delete_ban, do_world_meteor,
    do_world_save, do_world_butcher, do_kick_player, do_ban_player,
    do_kill_player, do_mute_player, do_unmute_player, do_group_delete,
    do_group_create, set_update_user, set_world_bloodmoon,
    set_world_autosaving, set_group_update in *.

(** X11.  A [get_token] that raises, for whatever reason, leaves the
    client as it was: the token stored before stays in use. *)
Theorem get_token_failure_keeps_token :
  forall user password w e w1,
    get_token server netloc_check user password w = (Raise e, w1) ->
    self w1 = self w.
Proof.
  intros user password w e w1. unfold get_token. unfold_M.
  destruct (RequestBuilder.get_url _ _ _ _) as [url|]; [|now intros [= _ <-]].
  pose proof (make_request_world server url w) as Hw.
  destruct (_make_request server url w) as [[r|e'] w']; simpl in Hw; subst w'.
  - destruct (getitem r "token"); [discriminate|]. now intros [= _ <-].
  - now intros [= _ <-].
Qed.

(** X12.  A reply to the login request that passes the validator but has
    no [token] field, as a "400" soft failure has none, makes [get_token]
    raise [KeyError("token")] after the request was made. *)
Theorem get_token_needs_token_field :
  forall user password w url d,
    RequestBuilder.get_url netloc_check (urls (self w))
      [PStr "v2"; PStr "token"; PStr "create"; PStr password]
      [("username", PStr user)] = Return url ->
    server (sent w) url = Responded (Some (JDict d)) ->
    dict_get d "status" = Some (PStr "200")
    \/ dict_get d "status" = Some (PStr "400") ->
    dict_get d "token" = None ->
    get_token server netloc_check user password w
    = (Raise (KeyError "token"), mkWorld (self w) (sent w ++ [url])).
Proof.
  intros user password w url d Hurl Hreply Hstatus Htoken.
  unfold get_token. unfold_M. rewrite Hurl, make_request_eq, Hreply.
  destruct Hstatus as [-> | ->]; simpl; now rewrite Htoken.
Qed.

(** X13.  When the stored token is not a [str] (the server answered the
    login with a number or [null] as token), [do_destroy_token] raises
    [TypeError] at the join of the path and makes no request. *)
Theorem do_destroy_token_needs_str_token :
  forall w,
    (forall s, builder_token w <> PStr s) ->
    do_destroy_token server netloc_check w = (Raise TypeError, w).
Proof.
  intros w Hns. unfold do_destroy_token. unfold_M. unfold builder_token in Hns.
  rewrite get_url_not_str; [reflexivity|].
  simpl. destruct (RequestBuilder.token (urls (self w))) as [| | |s| | |];
    try reflexivity.
  now destruct (Hns s).
Qed.

Lemma dict_has_key d k :
  dict_has d k = true -> exists kv, In kv d /\ fst kv = k.
Proof.
  unfold dict_has. induction d as [|[k' v] d IH]; simpl; [discriminate|].
  destruct (String.eqb_spec k' k) as [->|].
  - intros _. exists (k, v). split; [now left|reflexivity].
  - intros H. destruct (IH H) as (kv & Hin & Hk). exists kv. split; [now right|exact Hk].
Qed.

(** X14.  [get_server_status_v2] with a filter named [players], [rules]
    or [self] raises [TypeError] when the arguments of [get_url] are put
    together; no request is made. *)
Theorem get_server_status_v2_filter_clash :
  forall players rules filters w,
    dict_has filters "players" = true
    \/ dict_has filters "rules" = true
    \/ dict_has filters "self" = true ->
    get_server_status_v2 server netloc_check players rules (Some filters) w
    = (Raise TypeError, w).
Proof.
  intros players rules filters w H. unfold get_server_status_v2. unfold_M.
  assert (E : existsb
                (fun kv =>
                   dict_has [("players", PBool players); ("rules", PBool rules)] (fst kv)
                   || String.eqb (fst kv) "self") filters = true).
  { apply existsb_exists.
    destruct H as [H|[H|H]]; apply dict_has_key in H as (kv & Hin & Hk);
      exists kv; (split; [exact Hin|]); rewrite Hk; reflexivity. }
  now rewrite E.
Qed.

(** X15.  What [get_token_status] answers, by the reply to its one
    request: [False] when the request fails, on status "404" and on any
    other error status that comes with an [error] field; [True] on status
    "200" and also on "400"; the untyped exceptions of the validator pass
    through. *)
Theorem get_token_status_by_reply :
  forall w url,
    RequestBuilder.get_url netloc_check (urls (self w)) [PStr "tokentest"] []
    = Return url ->
    get_token_status server netloc_check w
    = (match server (sent w) url with
       | Failed => Return false
       | Responded None => Raise JSONDecodeError
       | Responded (Some (JOther _)) => Raise TypeError
       | Responded (Some (JDict d)) =>
           match dict_get d "status" with
           | None => Raise (KeyError "status")
           | Some status =>
               if py_eq_str status "404" then Return false
               else if py_in_strs status ["200"; "400"] then Return true
               else match dict_get d "error" with
                    | None => Raise (KeyError "error")
                    | Some _ => Return false
                    end
           end
       end,
       mkWorld (self w) (sent w ++ [url])).
Proof.
  intros w url Hurl. unfold get_token_status. unfold_M.
  rewrite Hurl, make_request_eq.
  destruct (server (sent w) url) as [|[[d|v]|]]; try reflexivity.
  destruct (dict_get d "status") as [status|]; [|reflexivity].
  destruct (py_eq_str status "404"); [reflexivity|].
  destruct (py_in_strs status ["200"; "400"]); [reflexivity|].
  destruct (dict_get d "error"); reflexivity.
Qed.

Local Ltac one_request H url R :=
  match type of H with
  | context [RequestBuilder.get_url ?c ?b ?a ?k] =>
      let G := fresh "G" in
      let built := fresh "built" in
      destruct (RequestBuilder.get_url c b a k) as [built|] eqn:G;
      [ match type of H with
        | context [_make_request ?s built ?w] =>
            let Hw := fresh "Hw" in
            pose proof (make_request_world s built w) as Hw;
            pose proof (make_request_eq s built w) as R;
            destruct (_make_request s built w) as [[?|?] ?];
            simpl in Hw, H; subst; simpl in H;
            apply sent_one_more in H; subst built
        end
      | simpl in H; exfalso; exact (sent_not_more _ _ H) ]
  end.

(** X16.  A [do_] or [set_] method that returns nothing returns [None]
    on a "400" reply as on a "200" reply: the soft failure of the server
    is dropped, and the caller cannot tell it from success. *)
Theorem none_methods_drop_soft_failure :
  forall c w url d,
    returns_none c = true ->
    sent (snd (invoke server netloc_check c w)) = (sent w ++ [url])%list ->
    server (sent w) url = Responded (Some (JDict d)) ->
    dict_get d "status" = Some (PStr "200")
    \/ dict_get d "status" = Some (PStr "400") ->
    invoke server netloc_check c w
    = (Return RNone, mkWorld (self w) (sent w ++ [url])).
Proof.
  intros c w url d Hc H Hreply Hstatus.
  destruct c; try discriminate Hc; clear Hc; cbn [invoke] in *;
    unfold_methods; unfold_M; cbv zeta in *;
    try match type of H with
        | context [existsb ?f ?l] => change (existsb f l) with false in *
        end;
    cbv beta iota in *;
    one_request H url R; rewrite Hreply in R;
    (destruct Hstatus as [Hs | Hs]; rewrite Hs in R; simpl in R;
     first [discriminate R | reflexivity]).
Qed.
(** X17.  A method that returns a dict returns the very dict the
    server sent in reply to the one request of the call, and that dict
    has status "200" or "400"; nothing else is ever returned as a
    dict. *)
Theorem dict_methods_return_server_dict :
  forall c w j w',
    invoke server netloc_check c w = (Return (RJson j), w') ->
    exists url d,
      j = JDict d
      /\ server (sent w) url = Responded (Some (JDict d))
      /\ (dict_get d "status" = Some (PStr "200")
          \/ dict_get d "status" = Some (PStr "400"))
      /\ w' = mkWorld (self w) (sent w ++ [url]).
Proof.
  intros c w j w' H.
  destruct c; cbn [invoke] in H; unfold_methods; unfold_M;
    cbv beta iota zeta in H;
    repeat match type of H with
      | context [existsb ?f ?l] => destruct (existsb f l)
      | context [RequestBuilder.get_url ?c ?b ?a ?k] =>
          destruct (RequestBuilder.get_url c b a k)
      | context [_make_request ?s ?u ?w] =>
          let R := fresh "R" in
          destruct (_make_request s u w) as [[?|?] ?] eqn:R
      | context [getitem ?r ?k] => destruct (getitem r k)
      | context [is_ApiException ?e] => destruct (is_ApiException e)
      end;
    simpl in H; try discriminate H;
    injection H as <- <-;
    match goal with
    | R : _make_request _ ?u _ = _ |- _ =>
        apply make_request_Return in R as (d & -> & Hreply & Hstatus & ->);
        exists u, d; repeat split; assumption
    end.
Qed.

Local Ltac failed_request H url R :=
  match type of H with
  | context [RequestBuilder.get_url ?c ?b ?a ?k] =>
      let G := fresh "G" in
      let built := fresh "built" in
      destruct (RequestBuilder.get_url c b a k) as [built|] eqn:G;
      [ match type of H with
        | context [_make_request ?s built ?w] =>
            let Hw := fresh "Hw" in
            pose proof (make_request_world s built w) as Hw;
            pose proof (make_request_eq s built w) as R;
            destruct (_make_request s built w) as [[?|?] ?];
            simpl in Hw, H; subst;
            repeat match type of H with
              | context [getitem ?r ?k] => destruct (getitem r k)
              | context [is_ApiException ?e] =>
                  let A := fresh "A" in destruct (is_ApiException e) eqn:A
              end;
            simpl in H; apply sent_one_more in H; subst built
        end
      | repeat match type of H with
          | context [is_ApiException ?e] => destruct (is_ApiException e)
          end;
        simpl in H; exfalso; exact (sent_not_more _ _ H) ]
  end.

(** X9.  When the HTTP GET of a call fails, the exception of the HTTP
    library is replaced before it reaches the caller: every method raises
    [ApiException("An error occurred in making the request to the
    server.")], except [get_token_status], which returns [False].  The
    request is on record and the client is unchanged. *)
Theorem failed_request_becomes_ApiException :
  forall c w url,
    sent (snd (invoke server netloc_check c w)) = (sent w ++ [url])%list ->
    server (sent w) url = Failed ->
    invoke server netloc_check c w
    = (match c with
       | Call_get_token_status => Return (RBool false)
       | _ => Raise (ApiException
                       "An error occurred in making the request to the server.")
       end,
       mkWorld (self w) (sent w ++ [url])).
Proof.
  intros c w url H Hreply.
  destruct c; cbn [invoke] in *;
    unfold_methods; unfold_M; cbv beta iota zeta in *;
    try match type of H with
        | context [existsb ?f ?l] =>
            destruct (existsb f l);
            [simpl in H; exfalso; exact (sent_not_more _ _ H)|]
        end;
    failed_request H url R; rewrite Hreply in R;
    first [ discriminate R
          | injection R as ->; first [reflexivity | discriminate] ].
Qed.
End EndpointMore.

(** X18.  [get_user_info], [get_ban_information] and [set_update_user]
    send the constant of the lookup member: the [type] parameter of the
    URL they request reads back as [lookup.value]. *)
Theorem lookup_value_is_forwarded :
  forall (server : transport) (netloc_check : string -> bool) w url,
    (forall lookup user,
        TShock.sent (snd (TShock.get_user_info server netloc_check lookup user w))
        = (TShock.sent w ++ [url])%list ->
        Query.query_param url "type" = Some (Enum.user_value lookup))
    /\ (forall lookup user,
          TShock.sent (snd (TShock.get_ban_information server netloc_check lookup user w))
          = (TShock.sent w ++ [url])%list ->
          Query.query_param url "type" = Some (Enum.ban_value lookup))
    /\ (forall user type password group,
          TShock.sent
            (snd (TShock.set_update_user server netloc_check user type password group w))
          = (TShock.sent w ++ [url])%list ->
          Query.query_param url "type" = Some (Enum.user_value type)).
Proof.
  intros server netloc_check w url. split; [|split].
  - intros lookup user. apply get_user_info_type.
  - intros lookup user. apply get_ban_information_type.
  - intros user type password group. apply set_update_user_type.
Qed.

(** Samples for the properties above. *)

Lemma get_url_exceptions_witness :
  RequestBuilder.get_url Sample.strict (TShock.urls Sample.client)
    [PStr "world"; PStr "bloodmoon"; PBool true] [] = Raise TypeError
  /\ RequestBuilder.get_url Sample.strict
       (RequestBuilder.mk (PStr "[::1") (PInt 7878) (PStr ""))
       [PStr "status"] [] = Raise ValueError.
Proof.
  split.
  - exact (proj2 (proj1 (get_url_exceptions Sample.strict (TShock.urls Sample.client)
                           [PStr "world"; PStr "bloodmoon"; PBool true] []))
             eq_refl).
  - destruct (proj2 (get_url_exceptions Sample.strict
                       (RequestBuilder.mk (PStr "[::1") (PInt 7878) (PStr ""))
                       [PStr "status"] []) ValueError eq_refl) as [E|E];
      [discriminate E|reflexivity].
Defined.

Lemma get_url_targets_location_witness :
  exists rest,
    RequestBuilder.get_url Sample.strict (TShock.urls Sample.client)
      [PStr "v2"; PStr "token"; PStr "create"; PStr "//evil.example/?x#y"]
      [("username", PStr "Ijwu")]
    = Return ("http://1.2.3.4:7878/" ++ rest ++ "?username=Ijwu&token=").
Proof.
  exact (get_url_targets_location Sample.strict (TShock.urls Sample.client)
           "v" "2" ["token"; "create"; "//evil.example/?x#y"]
           [("username", PStr "Ijwu")] eq_refl eq_refl).
Defined.

Lemma requests_go_to_location_witness :
  Forall (fun url => String.prefix "http://1.2.3.4:7878/" url = true)
    (TShock.sent
       (snd (TShock.run (Sample.answers Sample.login) Sample.strict
               [TShock.Call_get_token "Ijwu" "../../x"; TShock.Call_do_destroy_token;
                TShock.Call_get_player_info "a/b"]
               Sample.fresh))).
Proof.
  exact (requests_go_to_location (Sample.answers Sample.login) Sample.strict
           (PStr "1.2.3.4") (PInt 7878)
           [TShock.Call_get_token "Ijwu" "../../x"; TShock.Call_do_destroy_token;
            TShock.Call_get_player_info "a/b"]
           eq_refl).
Defined.

Lemma get_token_failure_keeps_token_witness :
  TShock.self
    (TShock.mkWorld Sample.client
       ["http://1.2.3.4:7878/v2/token/create/test?username=Ijwu&token="])
  = TShock.self Sample.fresh.
Proof.
  exact (get_token_failure_keeps_token (Sample.answers Sample.not_found) Sample.strict
           "Ijwu" "test" Sample.fresh
           (ApiException "404 Error. Are you sure the server has REST enabled?")
           (TShock.mkWorld Sample.client
              ["http://1.2.3.4:7878/v2/token/create/test?username=Ijwu&token="])
           eq_refl).
Defined.

Lemma get_token_needs_token_field_witness :
  TShock.get_token (Sample.answers Sample.soft_failure) Sample.strict
    "Ijwu" "wrong" Sample.fresh
  = (Raise (KeyError "token"),
     TShock.mkWorld Sample.client
       ["http://1.2.3.4:7878/v2/token/create/wrong?username=Ijwu&token="]).
Proof.
  exact (get_token_needs_token_field (Sample.answers Sample.soft_failure) Sample.strict
           "Ijwu" "wrong" Sample.fresh
           "http://1.2.3.4:7878/v2/token/create/wrong?username=Ijwu&token="
           Sample.soft_failure eq_refl eq_refl (or_intror eq_refl) eq_refl).
Defined.

Lemma do_destroy_token_needs_str_token_witness :
  TShock.do_destroy_token (Sample.answers Sample.ok_users) Sample.strict
    (TShock.mkWorld (TShock.set_urls_token Sample.client (PInt 5)) [])
  = (Raise TypeError,
     TShock.mkWorld (TShock.set_urls_token Sample.client (PInt 5)) []).
Proof.
  apply (do_destroy_token_needs_str_token (Sample.answers Sample.ok_users) Sample.strict
           (TShock.mkWorld (TShock.set_urls_token Sample.client (PInt 5)) [])).
  intros s E. discriminate E.
Defined.

Lemma get_server_status_v2_filter_clash_witness :
  TShock.get_server_status_v2 (Sample.answers Sample.ok_users) Sample.strict
    true false (Some [("group", PStr "admin"); ("players", PStr "all")]) Sample.fresh
  = (Raise TypeError, Sample.fresh).
Proof.
  exact (get_server_status_v2_filter_clash (Sample.answers Sample.ok_users)
           Sample.strict true false
           [("group", PStr "admin"); ("players", PStr "all")] Sample.fresh
           (or_introl eq_refl)).
Defined.

Lemma get_token_status_by_reply_witness :
  TShock.get_token_status (Sample.answers Sample.soft_failure) Sample.strict Sample.fresh
  = (Return true, TShock.mkWorld Sample.client [Sample.tokentest_url])
  /\ TShock.get_token_status (Sample.always Failed) Sample.strict Sample.fresh
     = (Return false, TShock.mkWorld Sample.client [Sample.tokentest_url]).
Proof.
  split.
  - exact (get_token_status_by_reply (Sample.answers Sample.soft_failure) Sample.strict
             Sample.fresh Sample.tokentest_url eq_refl).
  - exact (get_token_status_by_reply (Sample.always Failed) Sample.strict
             Sample.fresh Sample.tokentest_url eq_refl).
Defined.

Lemma none_methods_drop_soft_failure_witness :
  TShock.invoke (Sample.answers Sample.soft_failure) Sample.strict
    (TShock.Call_do_group_create "admins" "nosuchgroup" "" "255,255,255") Sample.fresh
  = (Return TShock.RNone,
     TShock.mkWorld Sample.client
       ["http://1.2.3.4:7878/v2/groups/create?group=admins&parent=nosuchgroup&permissions=&chatcolor=255%2C255%2C255&token="]).
Proof.
  exact (none_methods_drop_soft_failure (Sample.answers Sample.soft_failure)
           Sample.strict
           (TShock.Call_do_group_create "admins" "nosuchgroup" "" "255,255,255")
           Sample.fresh
           "http://1.2.3.4:7878/v2/groups/create?group=admins&parent=nosuchgroup&permissions=&chatcolor=255%2C255%2C255&token="
           Sample.soft_failure eq_refl eq_refl eq_refl (or_intror eq_refl)).
Defined.

Lemma dict_methods_return_server_dict_witness :
  exists url d,
    JDict Sample.ok_users = JDict d
    /\ Sample.answers Sample.ok_users [] url = Responded (Some (JDict d))
    /\ (dict_get d "status" = Some (PStr "200")
        \/ dict_get d "status" = Some (PStr "400"))
    /\ TShock.mkWorld Sample.client ["http://1.2.3.4:7878/v2/users/activelist?token="]
       = TShock.mkWorld Sample.client ([] ++ [url]).
Proof.
  exact (dict_methods_return_server_dict (Sample.answers Sample.ok_users) Sample.strict
           TShock.Call_get_active_user_list Sample.fresh (JDict Sample.ok_users)
           (TShock.mkWorld Sample.client
              ["http://1.2.3.4:7878/v2/users/activelist?token="])
           eq_refl).
Defined.

Lemma lookup_value_is_forwarded_witness :
  Query.query_param "http://1.2.3.4:7878/v2/users/read?type=id&user=7&token=" "type"
  = Some "id".
Proof.
  exact (proj1 (lookup_value_is_forwarded (Sample.answers Sample.ok_users) Sample.strict
                  Sample.fresh
                  "http://1.2.3.4:7878/v2/users/read?type=id&user=7&token=")
           UserLookupType_ID "7" eq_refl).
Defined.

(** X9 on samples: with a transport that always fails, [get_status]
    raises the [ApiException] of the client and [get_token_status]
    returns [False]. *)
Lemma failed_request_becomes_ApiException_witness :
  TShock.invoke (Sample.always Failed) Sample.strict TShock.Call_get_status Sample.fresh
  = (Raise (ApiException "An error occurred in making the request to the server."),
     TShock.mkWorld Sample.client [Sample.status_url])
  /\ TShock.invoke (Sample.always Failed) Sample.strict
       TShock.Call_get_token_status Sample.fresh
     = (Return (TShock.RBool false),
        TShock.mkWorld Sample.client [Sample.tokentest_url]).
Proof.
  split.
  - exact (failed_request_becomes_ApiException (Sample.always Failed) Sample.strict
             TShock.Call_get_status Sample.fresh Sample.status_url eq_refl eq_refl).
  - exact (failed_request_becomes_ApiException (Sample.always Failed) Sample.strict
             TShock.Call_get_token_status Sample.fresh Sample.tokentest_url
             eq_refl eq_refl).
Defined.
